(** * Anatomical workflow assembly of fmriprep-rodents

    A shallow embedding of [fmriprep/patch/workflows/anatomical.py] and
  [fprodents/tests/rs_fmri.py].  Python values, exceptions and the
  mutable objects the assembly functions touch (the workflow under
  construction, its node objects, the caller's [existing_derivatives]
  dictionary) are modelled explicitly; the image-processing interfaces
  are opaque node descriptions, as they are for the assembly code. *)

From Stdlib Require Import ZArith QArith Qabs SpecFloat.
From stdpp Require Import gmap strings list fin_maps.

(** ** Python values and exceptions *)

Module Py.

#[warnings="-register-all"]
Inductive pyval : Type :=
| PyNone
| PyBool (b : bool)
| PyInt (n : Z)
| PyStr (s : string)
| PyList (items : list pyval)
| PyTuple (items : list pyval).

Inductive PyError : Type :=
| NotImplementedError (msg : string)
| KeyError (key : string)
| IndexError
| NameError (name : string)
| FileNotFoundError (path : string)
| TraitError (trait : string).

Inductive Result (A : Type) : Type :=
| Ok (a : A)
| Raise (e : PyError).
Arguments Ok {A} a.
Arguments Raise {A} e.

#[global] Instance Result_ret : MRet Result := λ A a, Ok a.
#[global] Instance Result_bind : MBind Result := λ A B f r,
  match r with
  | Ok a => f a
  | Raise e => Raise e
  end.

(** [isinstance(v, (list, tuple))] *)
Definition is_list_or_tuple (v : pyval) : bool :=
  match v with
  | PyList _ | PyTuple _ => true
  | _ => false
  end.

(** The items of a sequence value; a non-sequence has none. *)
Definition items_of (v : pyval) : list pyval :=
  match v with
  | PyList l | PyTuple l => l
  | _ => []
  end.

(** [seq[0]] on a list or a tuple. *)
Definition getitem0 (l : list pyval) : Result pyval :=
  match l with
  | x :: _ => Ok x
  | [] => Raise IndexError
  end.

(** [v == s] for a string literal [s]. *)
Definition eq_str (v : pyval) (s : string) : bool :=
  match v with
  | PyStr s' => bool_decide (s' = s)
  | _ => false
  end.

(** [v == True]: [bool] is a subclass of [int], so [1 == True]. *)
Definition eq_True (v : pyval) : bool :=
  match v with
  | PyBool b => b
  | PyInt n => bool_decide (n = 1%Z)
  | _ => false
  end.

End Py.
Export Py.

(** ** The part of numpy the probe uses: 3-D arrays of binary32 values,
    integer indexing of one axis, [abs], [sum], [+] and [<].

    Intensities are IEEE 754 binary32 values ([dtype=np.float32]), with
    the arithmetic of the standard library's specification of floats. *)

Module Numpy.

Definition float32 : Type := spec_float.

(** [x + y] on [np.float32], rounded to nearest even. *)
Definition add32 (x y : float32) : float32 := SFadd 24 128 x y.

(** [x < y]; false when either side is NaN. *)
Definition ltb (x y : float32) : bool := SFltb x y.

(** A Python integer as a binary32 value. *)
Definition of_Z (n : Z) : float32 := binary_normalize 24 128 n 0 false.

Definition zero32 : float32 := S754_zero false.

Record ndarray : Type := {
  shape : nat * nat * nat;
  buf : list float32      (* C order: the last axis varies fastest *)
}.

Definition dim0 (a : ndarray) : nat := a.(shape).1.1.
Definition dim1 (a : ndarray) : nat := a.(shape).1.2.
Definition dim2 (a : ndarray) : nat := a.(shape).2.

(** [a[i, j, k]] for indices already in range. *)
Definition item (a : ndarray) (i j k : nat) : float32 :=
  nth ((i * dim1 a + j) * dim2 a + k) a.(buf) zero32.

(** [np.abs(a)] *)
Definition abs (a : ndarray) : ndarray :=
  {| shape := a.(shape); buf := map SFabs a.(buf) |}.

(** An integer index on an axis of length [n]: negative indices count
    from the end, anything outside [-n, n) raises [IndexError]. *)
Definition index (n : nat) (i : Z) : Result nat :=
  if decide (0 ≤ i < Z.of_nat n)%Z then Ok (Z.to_nat i)
  else if decide (- Z.of_nat n ≤ i < 0)%Z then Ok (Z.to_nat (i + Z.of_nat n))
  else Raise IndexError.

(** [a[i, :, :]], [a[:, j, :]] and [a[:, :, k]], flattened. *)
Definition take0 (a : ndarray) (i : Z) : Result (list float32) :=
  i' ← index (dim0 a) i;
  mret (flat_map (λ j, map (λ k, item a i' j k) (seq 0 (dim2 a)))
                 (seq 0 (dim1 a))).

Definition take1 (a : ndarray) (j : Z) : Result (list float32) :=
  j' ← index (dim1 a) j;
  mret (flat_map (λ i, map (λ k, item a i j' k) (seq 0 (dim2 a)))
                 (seq 0 (dim0 a))).

Definition take2 (a : ndarray) (k : Z) : Result (list float32) :=
  k' ← index (dim2 a) k;
  mret (flat_map (λ i, map (λ j, item a i j k') (seq 0 (dim1 a)))
                 (seq 0 (dim0 a))).

(** [.sum()] adds the elements of a slice in binary32, in an order and
    a grouping that are numpy's own (blocks, pairwise).  The reduction
    is a parameter of the model, see [np_sum] below; what is known of
    it is that its result is the value of some tree of additions over
    the elements. *)
Inductive sum_tree : Type :=
| Leaf (x : float32)
| Plus (l r : sum_tree).

Fixpoint tree_value (t : sum_tree) : float32 :=
  match t with
  | Leaf x => x
  | Plus l r => add32 (tree_value l) (tree_value r)
  end.

Fixpoint leaves (t : sum_tree) : list float32 :=
  match t with
  | Leaf x => [x]
  | Plus l r => leaves l ++ leaves r
  end.

Definition sums (reduce : list float32 → float32) : Prop :=
  ∀ l, l ≠ [] → ∃ t, leaves t ≡ₚ l ∧ reduce l = tree_value t.

(** One such reduction: from the first element on, left to right. *)
Definition sum_ltr (l : list float32) : float32 :=
  match l with
  | [] => zero32
  | x :: rest => fold_left add32 rest x
  end.

End Numpy.

(** ** The workflow engine as the assembly code uses it

    Node objects live in a heap keyed by the local variable that holds
    them, so that an assignment to [node.inputs.x] after the node has
    been connected is seen by the workflow that refers to it.  [connect]
    registers nodes and edges; the engine's own validation of port names
    is outside the model.  Interfaces and sub-workflows built by imported
    constructors are recorded with the arguments they are given, and the
    constructors are taken to return. *)

Module Engine.

(** Functions that appear as values: connection modifiers and the
    payload of [Function] interfaces. *)
Inductive FunctionName : Type :=
| Fn_pop
| Fn_fix_multi_source_name
| Fn_apply_bids_lut
| Fn_probseg_fast2bids
| Fn_no_atlas.

Inductive Interface : Type :=
| IdentityInterface (fields : list string)
| KeySelect (fields : list string) (keys : pyval)
| ValidateImage
| FAST (segments no_bias probability_maps : bool)
| Function (function : FunctionName)
| ImageMath (operation op2 : string)
| RobustMNINormalization (float : bool) (flavor : string)
| ApplyTransforms (dimension default_value : option Z) (interpolation : string)
(* sub-workflows built by imported constructors, with their arguments *)
| anat_reports_wf (freesurfer : bool) (output_dir : string)
| anat_template_wf (longitudinal : bool) (omp_nthreads : Z) (num_t1w : nat)
| rodent_brain_extraction_wf (in_template : string) (omp_nthreads : Z)
| anat_norm_wf (debug : bool) (omp_nthreads : Z) (templates : list string)
| anat_derivatives_wf (bids_root : string) (freesurfer : bool)
                      (num_t1w : nat) (output_dir : string).

Record Node : Type := {
  name : string;
  interface : Interface;
  inputs : gmap string pyval;            (* inputs assigned at build time *)
  iterables : list (string * pyval);
  joinsource : option string;            (* [Some _] for a [JoinNode] *)
  run_without_submitting : bool;
  n_procs : option Z;
  mem_gb : option Z
}.

(** [pe.Node(interface, name=name)] with the engine's defaults. *)
Definition mkNode (i : Interface) (nm : string) : Node :=
  {| name := nm; interface := i; inputs := ∅; iterables := [];
     joinsource := None; run_without_submitting := false;
     n_procs := None; mem_gb := None |}.

Definition with_inputs (f : gmap string pyval → gmap string pyval) (n : Node) : Node :=
  {| name := n.(name); interface := n.(interface); inputs := f n.(inputs);
     iterables := n.(iterables); joinsource := n.(joinsource);
     run_without_submitting := n.(run_without_submitting);
     n_procs := n.(n_procs); mem_gb := n.(mem_gb) |}.

Definition with_iterables (its : list (string * pyval)) (n : Node) : Node :=
  {| name := n.(name); interface := n.(interface); inputs := n.(inputs);
     iterables := its; joinsource := n.(joinsource);
     run_without_submitting := n.(run_without_submitting);
     n_procs := n.(n_procs); mem_gb := n.(mem_gb) |}.

Definition with_joinsource (j : string) (n : Node) : Node :=
  {| name := n.(name); interface := n.(interface); inputs := n.(inputs);
     iterables := n.(iterables); joinsource := Some j;
     run_without_submitting := n.(run_without_submitting);
     n_procs := n.(n_procs); mem_gb := n.(mem_gb) |}.

Definition with_resources (rws : bool) (np mg : option Z) (n : Node) : Node :=
  {| name := n.(name); interface := n.(interface); inputs := n.(inputs);
     iterables := n.(iterables); joinsource := n.(joinsource);
     run_without_submitting := rws; n_procs := np; mem_gb := mg |}.

(** A source port, possibly through a function: [('port', f)]. *)
Record Edge : Type := {
  src : string;
  src_port : string;
  src_fn : option FunctionName;
  dst : string;
  dst_port : string
}.

(** [workflow.__desc__]: a plain string, or [template.format] applied to
    keyword arguments. *)
Inductive Desc : Type :=
| Plain (text : string)
| Format (template : string) (kwargs : list (string * pyval)).

Record Workflow : Type := {
  wf_name : string;
  graph_nodes : list string;       (* heap keys, in order of registration *)
  graph_edges : list Edge;
  __desc__ : option Desc
}.

Inductive Event : Type :=
| Log (level : Z) (msg arg : string)       (* [LOGGER.log] *)
| Probe (imgs : list string)               (* a call of [_is_skull_stripped] *)
| Load (img : string).                     (* [nb.load] *)

(** What lies outside the assembly code: the files on disk, numpy's
    reduction, tool versions, and [fix_multi_source_name], which is
    imported from a module of the package that is not part of the
    sources at hand. *)
Record World : Type := {
  files : string → option Numpy.ndarray;
  np_sum : list Numpy.float32 → Numpy.float32;     (* [ndarray.sum()] *)
  ants_version : option string;
  fsl_version : option string;
  fix_multi_source_name : list pyval → string → Result pyval
}.

Record State : Type := {
  heap : gmap string Node;
  workflow : Workflow;
  existing_derivatives : option (gmap string pyval);  (* the caller's dict *)
  trace : list Event
}.

Definition M (A : Type) : Type := State → Result A * State.

#[global] Instance M_ret : MRet M := λ A a s, (Ok a, s).
#[global] Instance M_bind : MBind M := λ A B f m s,
  match m s with
  | (Ok a, s') => f a s'
  | (Raise e, s') => (Raise e, s')
  end.

Definition raise {A} (e : PyError) : M A := λ s, (Raise e, s).

Definition lift {A} (r : Result A) : M A := λ s, (r, s).

Definition modify (f : State → State) : M () := λ s, (Ok (), f s).

Definition set_heap (f : gmap string Node → gmap string Node) (s : State) : State :=
  {| heap := f s.(heap); workflow := s.(workflow);
     existing_derivatives := s.(existing_derivatives); trace := s.(trace) |}.

Definition set_workflow (f : Workflow → Workflow) (s : State) : State :=
  {| heap := s.(heap); workflow := f s.(workflow);
     existing_derivatives := s.(existing_derivatives); trace := s.(trace) |}.

Definition set_derivatives (d : option (gmap string pyval)) (s : State) : State :=
  {| heap := s.(heap); workflow := s.(workflow);
     existing_derivatives := d; trace := s.(trace) |}.

Definition emit (e : Event) : M () :=
  modify (λ s, {| heap := s.(heap); workflow := s.(workflow);
                  existing_derivatives := s.(existing_derivatives);
                  trace := s.(trace) ++ [e] |}).

(** [Workflow(name=name)] *)
Definition new_workflow (nm : string) : M () :=
  modify (set_workflow (λ _,
    {| wf_name := nm; graph_nodes := []; graph_edges := []; __desc__ := None |})).

Definition set_desc (d : Desc) : M () :=
  modify (set_workflow (λ w,
    {| wf_name := w.(wf_name); graph_nodes := w.(graph_nodes);
       graph_edges := w.(graph_edges); __desc__ := Some d |})).

(** [var = pe.Node(...)] *)
Definition alloc (var : string) (n : Node) : M () :=
  modify (set_heap (insert var n)).

(** [var.inputs.field = value] *)
Definition set_input (var field : string) (value : pyval) (s : State) : State :=
  set_heap (alter (with_inputs (insert field value)) var) s.

(** [var.iterables = its] *)
Definition set_iterables (var : string) (its : list (string * pyval)) : M () :=
  modify (set_heap (alter (with_iterables its) var)).

(** One item of the list given to [connect]:
    [(source, destination, [(source port, destination port), ...])]. *)
Definition Connection : Type :=
  string * string * list (string * option FunctionName * string).

(** [('a', 'b')] and [(('a', f), 'b')] *)
Definition port (s d : string) : string * option FunctionName * string :=
  (s, None, d).

Definition portf (s : string) (f : FunctionName) (d : string)
  : string * option FunctionName * string :=
  (s, Some f, d).

Definition add_node (var : string) (l : list string) : list string :=
  if decide (var ∈ l) then l else l ++ [var].

Definition connect1 (c : Connection) (w : Workflow) : Workflow :=
  let '(s, d, ports) := c in
  {| wf_name := w.(wf_name);
     graph_nodes := add_node d (add_node s w.(graph_nodes));
     graph_edges := w.(graph_edges) ++
       map (λ p, {| src := s; src_port := p.1.1; src_fn := p.1.2;
                    dst := d; dst_port := p.2 |}) ports;
     __desc__ := w.(__desc__) |}.

(** [workflow.connect([...])] *)
Definition connect (cs : list Connection) : M () :=
  modify (set_workflow (λ w, fold_left (λ w c, connect1 c w) cs w)).

(** The workflow as returned to the caller: the node objects are read
    from the heap when the function returns. *)
Record Graph : Type := {
  g_name : string;
  g_desc : option Desc;
  g_nodes : list Node;
  g_edges : list Edge
}.

Definition snapshot (s : State) : Graph :=
  {| g_name := s.(workflow).(wf_name);
     g_desc := s.(workflow).(__desc__);
     g_nodes := omap (λ v, s.(heap) !! v) s.(workflow).(graph_nodes);
     g_edges := s.(workflow).(graph_edges) |}.

Definition return_workflow : M (option Graph) := λ s, (Ok (Some (snapshot s)), s).

(** [existing_derivatives.pop(key)] *)
Definition derivatives_pop (key : string) : M pyval := λ s,
  match s.(existing_derivatives) with
  | Some d =>
      match d !! key with
      | Some v => (Ok v, set_derivatives (Some (delete key d)) s)
      | None => (Raise (KeyError key), s)
      end
  | None => (Raise (KeyError key), s)
  end.

(** [existing_derivatives[key]] *)
Definition derivatives_get (key : string) : M pyval := λ s,
  match s.(existing_derivatives) with
  | Some d =>
      match d !! key with
      | Some v => (Ok v, s)
      | None => (Raise (KeyError key), s)
      end
  | None => (Raise (KeyError key), s)
  end.

(** [for field, value in existing_derivatives.items(): body] where the
    body cannot raise. *)
Definition for_items (body : string → pyval → State → State) : M () := λ s,
  match s.(existing_derivatives) with
  | Some d => (Ok (), map_fold body s d)
  | None => (Ok (), s)
  end.

(** [nb.load(img).get_fdata(dtype=np.float32)] *)
Definition load (w : World) (img : string) : M Numpy.ndarray := λ s,
  match emit (Load img) s with
  | (_, s') =>
      match w.(files) img with
      | Some a => (Ok a, s')
      | None => (Raise (FileNotFoundError img), s')
      end
  end.

(** [x or default] on an optional string. *)
Definition or_default (x : option string) (default : string) : string :=
  match x with
  | Some (String c r) => String c r
  | _ => default
  end.

Definition initial (d : option (gmap string pyval)) : State :=
  {| heap := ∅;
     workflow := {| wf_name := ""; graph_nodes := []; graph_edges := [];
                    __desc__ := None |};
     existing_derivatives := d; trace := [] |}.

End Engine.
Export Engine.

(** ** [fmriprep/patch/workflows/anatomical.py] *)

Module Anatomical.

(** [niworkflows.utils.spaces.Reference], as far as it is read. *)
Record Reference : Type := {
  space : string;
  fullname : string
}.

(** [niworkflows.utils.spaces.SpatialReferences]:
    [get_spaces(nonstandard=..., dim=...)]. *)
Record SpatialReferences : Type := {
  get_spaces : bool → list Z → list string
}.

(** The keyword arguments of [init_anat_preproc_wf], except
    [existing_derivatives], which is a mutable object of the caller and
    lives in the state. *)
Record Args : Type := {
  bids_root : string;
  hires : bool;
  longitudinal : bool;
  t2w : list string;
  omp_nthreads : Z;
  output_dir : string;
  skull_strip_mode : pyval;
  skull_strip_template : Reference;
  spaces : SpatialReferences;
  debug : bool;
  freesurfer : bool;
  name : string;
  skull_strip_fixed_seed : bool
}.

(** Lines 412-415. *)
Definition _pop (inlist : pyval) : Result pyval :=
  if is_list_or_tuple inlist then getitem0 (items_of inlist)
  else Ok inlist.

(** Lines 418-420: reorder (CSF, WM, GM) to (GM, WM, CSF). *)
Definition _probseg_fast2bids (inlist : list pyval) : Result pyval :=
  match inlist with
  | x0 :: x1 :: x2 :: _ => Ok (PyTuple [x1; x2; x0])
  | _ => Raise IndexError
  end.

(** The six face sums of [_check_img], in the order they are evaluated
    and added. *)
Definition sidevals (w : World) (data : Numpy.ndarray) : Result Numpy.float32 :=
  x0 ← Numpy.take0 data 0;
  x1 ← Numpy.take0 data (-1);
  y0 ← Numpy.take1 data 0;
  y1 ← Numpy.take1 data (-1);
  z0 ← Numpy.take2 data 0;
  z1 ← Numpy.take2 data (-1);
  mret (Numpy.add32 (Numpy.add32 (Numpy.add32 (Numpy.add32 (Numpy.add32
          (w.(np_sum) x0) (w.(np_sum) x1)) (w.(np_sum) y0)) (w.(np_sum) y1))
          (w.(np_sum) z0)) (w.(np_sum) z1)).

(** The decision of [_check_img] on loaded data: [sidevals < 10]. *)
Definition check_data (w : World) (loaded : Numpy.ndarray) : Result bool :=
  v ← sidevals w (Numpy.abs loaded);
  mret (Numpy.ltb v (Numpy.of_Z 10)).

Definition _check_img (w : World) (img : string) : M bool :=
  loaded ← load w img;
  lift (check_data w loaded).

(** [all(_check_img(img) for img in imgs)]: the generator is consumed up
    to the first image that is not skull-stripped. *)
Fixpoint all_check_img (w : World) (imgs : list string) : M bool :=
  match imgs with
  | [] => mret true
  | img :: rest =>
      b ← _check_img w img;
      if b : bool then all_check_img w rest else mret false
  end.

Definition _is_skull_stripped (w : World) (imgs : list string) : M bool :=
  emit (Probe imgs);;
  all_check_img w imgs.

Definition desc_head : string :=
"Anatomical data preprocessing
: A total of {num_t2w} T2-weighted (T2w) images were found within the input
BIDS dataset.".

Definition desc_reused : string :=
"
Anatomical preprocessing was reused from previously existing derivative objects.
".

Definition desc_inu (num_t2w : nat) : string :=
  (if decide (1 < num_t2w) then
"
All of them were corrected for intensity non-uniformity (INU)
" else
"The T2-weighted (T2w) image was corrected for intensity non-uniformity (INU)
") +:+
"with `N4BiasFieldCorrection` [@n4], distributed with ANTs {ants_ver} [@ants, RRID:SCR_004757]"
  +:+ (if decide (1 < num_t2w) then ".
" else ", and used as T2w-reference throughout the workflow.
") +:+
"The T2w-reference was then skull-stripped with a *Nipype* implementation of
the `antsBrainExtraction.sh` workflow (from ANTs), using {skullstrip_tpl}
as target template.
Brain tissue segmentation of cerebrospinal fluid (CSF),
white-matter (WM) and gray-matter (GM) was performed on
the brain-extracted T1w using `fast` [FSL {fsl_ver}, RRID:SCR_002823,
@fsl_fast].
".

(** Lines 164-193: the workflow object, its interface nodes and the
    reportlets sub-workflow, connected to the output node. *)
Definition prologue (freesurfer : bool) (a : Args) : M () :=
  new_workflow a.(name);;
  alloc "inputnode" (mkNode
    (IdentityInterface ["t2w"; "roi"; "flair"; "subjects_dir"; "subject_id"])
    "inputnode");;
  alloc "outputnode" (mkNode
    (IdentityInterface ["t2w_preproc"; "t2w_mask"; "t2w_dseg"; "t2w_tpms";
                        "std_preproc"; "std_mask"; "std_dseg"; "std_tpms";
                        "anat2std_xfm"; "std2anat_xfm"; "template"])
    "outputnode");;
  alloc "anat_reports_wf" (mkNode
    (anat_reports_wf freesurfer a.(output_dir)) "anat_reports_wf");;
  connect [
    ("outputnode", "anat_reports_wf", [
       port "t2w_preproc" "inputnode.t1w_preproc";
       port "t2w_mask" "inputnode.t1w_mask";
       port "t2w_dseg" "inputnode.t1w_dseg"])
  ].

(** Lines 195-232: prior derivatives are reused. *)
Definition reuse_derivatives (w : World) (a : Args) (desc : string)
  : M (option Graph) :=
  emit (Log 25 ("Anatomical workflow will reuse prior derivatives found in the " +:+
                "output folder (%s).") a.(output_dir));;
  let desc := desc +:+ desc_reused in
  set_desc (Plain desc);;
  templates ← derivatives_pop "template";
  alloc "templatesource" (mkNode (IdentityInterface ["template"]) "templatesource");;
  set_iterables "templatesource" [("template", templates)];;
  modify (set_input "outputnode" "template" templates);;
  for_items (λ field value, set_input "outputnode" field value);;
  t2w_preproc ← derivatives_get "t2w_preproc";
  source_file ← lift (w.(fix_multi_source_name) [t2w_preproc] "T2w");
  modify (set_input "anat_reports_wf" "inputnode.source_file" source_file);;
  alloc "stdselect" (with_resources true None None
    (mkNode (KeySelect ["std_preproc"; "std_mask"] templates) "stdselect"));;
  connect [
    ("inputnode", "outputnode", [
       port "subjects_dir" "subjects_dir";
       port "subject_id" "subject_id"]);
    ("inputnode", "anat_reports_wf", [
       port "subjects_dir" "inputnode.subjects_dir";
       port "subject_id" "inputnode.subject_id"]);
    ("templatesource", "stdselect", [port "template" "key"]);
    ("outputnode", "stdselect", [
       port "std_preproc" "std_preproc";
       port "std_mask" "std_mask"]);
    ("stdselect", "anat_reports_wf", [
       port "key" "inputnode.template";
       port "std_preproc" "inputnode.std_t1w";
       port "std_mask" "inputnode.std_mask"])
  ];;
  return_workflow.

(** Lines 234-270: the description of the computed workflow and the
    nodes created before the skull-stripping decision. *)
Definition describe (w : World) (a : Args) (desc : string) : M () :=
  let num_t2w := length a.(t2w) in
  let desc := desc +:+ desc_inu num_t2w in
  set_desc (Format desc [
    ("ants_ver", PyStr (or_default w.(ants_version) "(version unknown)"));
    ("fsl_ver", PyStr (or_default w.(fsl_version) "(version unknown)"));
    ("num_t2w", PyInt (Z.of_nat num_t2w));
    ("skullstrip_tpl", PyStr a.(skull_strip_template).(fullname))]);;
  alloc "buffernode" (mkNode (IdentityInterface ["t2w_brain"; "t2w_mask"]) "buffernode");;
  alloc "anat_template_wf" (mkNode
    (anat_template_wf a.(longitudinal) a.(omp_nthreads) num_t2w)
    "anat_template_wf");;
  alloc "anat_validate" (with_resources true None None
    (mkNode ValidateImage "anat_validate")).

(** Lines 273-288: in mode ['auto'] the mode is replaced by the verdict
    of the probe. *)
Definition resolve_mode (w : World) (a : Args) : M pyval :=
  if eq_str a.(skull_strip_mode) "auto" then
    b ← _is_skull_stripped w a.(t2w);
    mret (PyBool b)
  else mret a.(skull_strip_mode).

(** Lines 290-297. *)
Definition brain_extraction (a : Args) (mode : pyval) : M () :=
  if eq_True mode || eq_str mode "skip" then
    raise (NotImplementedError "Cannot run on already skull-stripped images.")
  else
    alloc "brain_extraction_wf" (mkNode
      (rodent_brain_extraction_wf a.(skull_strip_template).(space) a.(omp_nthreads))
      "brain_extraction_wf").

(** Lines 299-389: spatial normalization, the main wiring, the look-up
    table node, the reportlets and the derivatives sub-workflow. *)
Definition wire (freesurfer : bool) (a : Args) : M () :=
  alloc "anat_norm_wf" (mkNode
    (anat_norm_wf a.(debug) a.(omp_nthreads)
                  (a.(spaces).(get_spaces) false [3%Z]))
    "anat_norm_wf");;
  connect [
    (* Step 1. *)
    ("inputnode", "anat_template_wf", [port "t2w" "inputnode.t1w"]);
    ("anat_template_wf", "anat_validate", [
       port "outputnode.t1w_ref" "in_file"]);
    ("anat_validate", "brain_extraction_wf", [
       port "out_file" "inputnode.in_files"]);
    ("brain_extraction_wf", "outputnode", [
       portf "outputnode.out_corrected" Fn_pop "t2w_preproc"]);
    ("anat_template_wf", "outputnode", [
       port "outputnode.t1w_realign_xfm" "t2w_ref_xfms"]);
    ("buffernode", "outputnode", [
       port "t2w_brain" "t2w_brain";
       port "t2w_mask" "t2w_mask"]);
    (* Steps 2, 3 and 4 *)
    ("inputnode", "anat_norm_wf", [
       portf "t2w" Fn_fix_multi_source_name "inputnode.orig_t1w";
       port "roi" "inputnode.lesion_mask"]);
    ("brain_extraction_wf", "anat_norm_wf", [
       portf "outputnode.out_corrected" Fn_pop "inputnode.moving_image"]);
    ("buffernode", "anat_norm_wf", [port "t2w_mask" "inputnode.moving_mask"]);
    ("anat_norm_wf", "outputnode", [
       port "poutputnode.standardized" "std_preproc";
       port "poutputnode.std_mask" "std_mask";
       port "poutputnode.std_dseg" "std_dseg";
       port "poutputnode.std_tpms" "std_tpms";
       port "outputnode.template" "template";
       port "outputnode.anat2std_xfm" "anat2std_xfm";
       port "outputnode.std2anat_xfm" "std2anat_xfm"])
  ];;
  alloc "lut_t1w_dseg" (mkNode (Function Fn_apply_bids_lut) "lut_t1w_dseg");;
  connect [
    ("lut_t1w_dseg", "anat_norm_wf", [
       port "out" "inputnode.moving_segmentation"]);
    ("lut_t1w_dseg", "outputnode", [port "out" "t1w_dseg"])
  ];;
  (* Connect reportlets *)
  connect [
    ("inputnode", "anat_reports_wf", [
       portf "t2w" Fn_fix_multi_source_name "inputnode.source_file"]);
    ("outputnode", "anat_reports_wf", [
       port "std_preproc" "inputnode.std_t1w";
       port "std_mask" "inputnode.std_mask"]);
    ("anat_template_wf", "anat_reports_wf", [
       port "outputnode.out_report" "inputnode.t1w_conform_report"]);
    ("anat_norm_wf", "anat_reports_wf", [
       port "poutputnode.template" "inputnode.template"])
  ];;
  (* Write outputs *)
  alloc "anat_derivatives_wf" (mkNode
    (anat_derivatives_wf a.(bids_root) freesurfer (length a.(t2w)) a.(output_dir))
    "anat_derivatives_wf");;
  connect [
    ("anat_template_wf", "anat_derivatives_wf", [
       port "outputnode.t1w_valid_list" "inputnode.source_files"]);
    ("anat_norm_wf", "anat_derivatives_wf", [
       port "poutputnode.template" "inputnode.template";
       port "poutputnode.anat2std_xfm" "inputnode.anat2std_xfm";
       port "poutputnode.std2anat_xfm" "inputnode.std2anat_xfm"]);
    ("outputnode", "anat_derivatives_wf", [
       port "std_preproc" "inputnode.std_t1w";
       port "t2w_ref_xfms" "inputnode.t1w_ref_xfms";
       port "t2w_preproc" "inputnode.t1w_preproc";
       port "t2w_mask" "inputnode.t1w_mask";
       port "t2w_dseg" "inputnode.t1w_dseg";
       port "t2w_tpms" "inputnode.t1w_tpms";
       port "std_mask" "inputnode.std_mask";
       port "std_dseg" "inputnode.std_dseg";
       port "std_tpms" "inputnode.std_tpms"])
  ].

(** Lines 391-409: tissue segmentation with FAST when FreeSurfer is off;
    otherwise the function body ends and Python returns [None]. *)
Definition segmentation (freesurfer : bool) : M (option Graph) :=
  if negb freesurfer then
    alloc "t1w_dseg" (with_resources false None (Some 3%Z)
      (mkNode (FAST true true true) "t1w_dseg"));;
    modify (set_input "lut_t1w_dseg" "lut"
              (PyTuple [PyInt 0; PyInt 3; PyInt 1; PyInt 2]));;
    alloc "fast2bids" (with_resources true None None
      (mkNode (Function Fn_probseg_fast2bids) "fast2bids"));;
    connect [
      ("brain_extraction_wf", "buffernode", [
         portf "outputnode.out_brain" Fn_pop "t2w_brain";
         port "outputnode.out_mask" "t2w_mask"]);
      ("buffernode", "t1w_dseg", [port "t2w_brain" "in_files"]);
      ("t1w_dseg", "lut_t1w_dseg", [port "partial_volume_map" "in_dseg"]);
      ("t1w_dseg", "fast2bids", [port "partial_volume_files" "inlist"]);
      ("fast2bids", "anat_norm_wf", [port "out" "inputnode.moving_tpms"]);
      ("fast2bids", "outputnode", [port "out" "t2w_tpms"])
    ];;
    return_workflow
  else mret None.

(** [existing_derivatives is not None] *)
Definition derivatives_supplied : M bool := λ s,
  (Ok (match s.(existing_derivatives) with Some _ => true | None => false end), s).

(** The body of [init_anat_preproc_wf] below its first statement, as a
    function of the local variable [freesurfer]. *)
Definition assemble (freesurfer : bool) (w : World) (a : Args) : M (option Graph) :=
  prologue freesurfer a;;
  cached ← derivatives_supplied;
  if cached : bool then reuse_derivatives w a desc_head
  else
    describe w a desc_head;;
    mode ← resolve_mode w a;
    brain_extraction a mode;;
    wire freesurfer a;;
    segmentation freesurfer.

(** Line 164 overwrites the argument: [freesurfer = False]. *)
Definition init_anat_preproc_wf (w : World) (a : Args) : M (option Graph) :=
  let freesurfer := a.(freesurfer) in
  let freesurfer := false in
  assemble freesurfer w a.

(** A call from a caller that holds the dictionary [d] (or [None]): the
    result, and the state the call leaves behind. *)
Definition call (w : World) (a : Args) (d : option (gmap string pyval))
  : Result (option Graph) * State :=
  init_anat_preproc_wf w a (initial d).

End Anatomical.

(** ** [fprodents/tests/rs_fmri.py] *)

Module RsFmri.

(** Lines 84-87. *)
Definition _pop (inlist : pyval) : Result pyval :=
  if is_list_or_tuple inlist then getitem0 (items_of inlist)
  else Ok inlist.

Definition out_fields : list string :=
  ["anat2std_xfm"; "standardized"; "std2anat_xfm"; "std_mask"; "template";
   "template_spec"].

(** The value of a name that no enclosing scope binds. *)
Definition unbound {A} (name : string) : M A := raise (NameError name).

(** [node.inputs.field = path] where the trait of the input is a file
    that must exist: the assignment raises [TraitError] when there is no
    such file. *)
Definition set_existing_file (w : World) (var field path : string) : M () := λ s,
  match w.(files) path with
  | Some _ => (Ok (), set_input var field (PyStr path) s)
  | None => (Raise (TraitError field), s)
  end.

(** [init_anat_norm_wf]: the templates become the iterable of the input
    node as they are given; the reference images are fixed paths that
    must exist; the list handed to the first [connect] mentions
    [split_desc], which is bound neither in the function nor in the
    module. *)
Definition init_anat_norm_wf (w : World) (debug : bool) (omp_nthreads : Z)
    (templates : list string) (name : string) : M (option Graph) :=
  let ntpls := length templates in
  new_workflow name;;
  alloc "inputnode" (mkNode
    (IdentityInterface ["lesion_mask"; "moving_image"; "moving_mask";
                        "orig_t1w"; "template"])
    "inputnode");;
  set_iterables "inputnode" [("template", PyList (PyStr <$> templates))];;
  alloc "poutputnode" (mkNode (IdentityInterface out_fields) "poutputnode");;
  alloc "trunc_mov" (mkNode
    (ImageMath "TruncateImageIntensity" "0.01 0.999 256") "trunc_mov");;
  alloc "registration" (with_resources false (Some omp_nthreads) (Some 2%Z)
    (mkNode (RobustMNINormalization true (if debug then "testing" else "precise"))
            "registration"));;
  alloc "tpl_moving" (mkNode
    (ApplyTransforms (Some 3%Z) (Some 0%Z) "LanczosWindowedSinc") "tpl_moving");;
  alloc "std_mask" (mkNode (ApplyTransforms None None "MultiLabel") "std_mask");;
  set_existing_file w "tpl_moving" "reference_image"
    "/globalscratch/users/q/d/qdessain/SYRINA/Template/MouseIn/tpl-MouseIn_res-1_T1map.nii.gz";;
  set_existing_file w "std_mask" "reference_image"
    "/globalscratch/users/q/d/qdessain/SYRINA/Template/MouseIn/tpl-MouseIn_res-1_desc-brain_mask.nii.gz";;
  split_desc ← unbound "split_desc";
  connect [
    ("inputnode", "poutputnode", [port "template" "template"]);
    ("inputnode", "trunc_mov", [port "moving_image" "op1"]);
    ("inputnode", "registration", [
       port "moving_mask" "moving_mask";
       port "lesion_mask" "lesion_mask"]);
    ("inputnode", "tpl_moving", [port "moving_image" "input_image"]);
    ("inputnode", "std_mask", [port "moving_mask" "input_image"]);
    (split_desc, "registration", [
       port "name" "template";
       portf "spec" Fn_no_atlas "template_spec"]);
    ("trunc_mov", "registration", [port "output_image" "moving_image"]);
    ("registration", "tpl_moving", [port "composite_transform" "transforms"]);
    ("registration", "std_mask", [port "composite_transform" "transforms"]);
    ("registration", "poutputnode", [
       port "composite_transform" "anat2std_xfm";
       port "inverse_composite_transform" "std2anat_xfm"]);
    ("tpl_moving", "poutputnode", [port "output_image" "standardized"]);
    ("std_mask", "poutputnode", [port "output_image" "std_mask"])
  ];;
  (* Provide synchronized output *)
  alloc "outputnode" (with_joinsource "inputnode"
    (mkNode (IdentityInterface out_fields) "outputnode"));;
  connect [
    ("poutputnode", "outputnode", map (λ f, port f f) out_fields)
  ];;
  return_workflow.

End RsFmri.

(** ** Expansion and join, as the specification describes them

    The engine that expands an iterable into branches and joins them
    again at execution time is not part of the sources; [rs_fmri.py] only
    attaches the iterable and declares the join node. *)

Module JoinSynchronizer.

(** Modelled from the spec: a Branch, one instantiation of the expanded
    sub-graph tagged with the key that produced it, here with the
    values of its output ports once it has completed. *)
Record Branch : Type := {
  key : string;
  outputs : gmap string pyval
}.

Inductive EngineError : Type :=
| EmptyIterableError
| JoinMismatchError.

(** Modelled from the spec: the ParameterExpander makes one Branch per
    key, in key order, and refuses an empty key set. *)
Definition expand (keys : list string) (run : string → gmap string pyval)
  : EngineError + list Branch :=
  match keys with
  | [] => inl EmptyIterableError
  | _ => inr (map (λ k, {| key := k; outputs := run k |}) keys)
  end.

(** The output of the branch tagged [k], among the branches in the
    order in which they completed. *)
Definition branch_output (finished : list Branch) (output_field k : string)
  : option pyval :=
  b ← list_find (λ b, key b = k) finished;
  outputs b.2 !! output_field.

Fixpoint gather (keys : list string) (finished : list Branch)
    (output_field : string) : EngineError + list pyval :=
  match keys with
  | [] => inr []
  | k :: rest =>
      match branch_output finished output_field k with
      | None => inl JoinMismatchError
      | Some v =>
          match gather rest finished output_field with
          | inl e => inl e
          | inr vs => inr (v :: vs)
          end
      end
  end.

(** Modelled from the spec: the JoinSynchronizer gathers the same-named
    output port across all branches of one expansion, ordered by the
    original key order; it fails with [JoinMismatchError] if a branch
    is missing the output or if the branch count is not the key count. *)
Definition join (keys : list string) (finished : list Branch)
    (output_field : string) : EngineError + list pyval :=
  if decide (length finished = length keys)
  then gather keys finished output_field
  else inl JoinMismatchError.

End JoinSynchronizer.

(** ** Vocabulary of the statements *)

(** The faces of a volume, the binary32 value the probe computes from
    them, and the exact sum the claim speaks of. *)
Module ProbeSpec.
Import Numpy.

Inductive Face : Type := X0 | X1 | Y0 | Y1 | Z0 | Z1.

Definition on_face (a : ndarray) (f : Face) (v : nat * nat * nat) : bool :=
  let '(i, j, k) := v in
  match f with
  | X0 => bool_decide (i = 0)
  | X1 => bool_decide (i = dim0 a - 1)
  | Y0 => bool_decide (j = 0)
  | Y1 => bool_decide (j = dim1 a - 1)
  | Z0 => bool_decide (k = 0)
  | Z1 => bool_decide (k = dim2 a - 1)
  end.

Definition voxels (a : ndarray) : list (nat * nat * nat) :=
  flat_map (λ i, flat_map (λ j, map (λ k, (i, j, k)) (seq 0 (dim2 a)))
                          (seq 0 (dim1 a)))
           (seq 0 (dim0 a)).

(** The absolute intensities on one face. *)
Definition face_values (a : ndarray) (f : Face) : list float32 :=
  map (λ v, SFabs (item a v.1.1 v.1.2 v.2))
      (filter (λ v, on_face a f v = true) (voxels a)).

(** The six face sums, each reduced by numpy, added in binary32 from
    left to right. *)
Definition faces_sum32 (w : World) (a : ndarray) : float32 :=
  add32 (add32 (add32 (add32 (add32
    (w.(np_sum) (face_values a X0)) (w.(np_sum) (face_values a X1)))
    (w.(np_sum) (face_values a Y0))) (w.(np_sum) (face_values a Y1)))
    (w.(np_sum) (face_values a Z0))) (w.(np_sum) (face_values a Z1)).

(** The rational a finite binary32 value stands for. *)
Definition to_Q (x : float32) : Q :=
  match x with
  | S754_finite s m e =>
      ((if s then -1 else 1) * inject_Z (Zpos m) * 2 ^ e)%Q
  | _ => 0%Q
  end.

Definition total (l : list Q) : Q := foldr Qplus 0%Q l.

Definition absval (a : ndarray) (v : nat * nat * nat) : Q :=
  Qabs (to_Q (item a v.1.1 v.1.2 v.2)).

Definition face_abs_sum (a : ndarray) (f : Face) : Q :=
  total (map (absval a) (filter (λ v, on_face a f v = true) (voxels a))).

(** The sum of the absolute intensities over the six outer faces, in
    exact arithmetic. *)
Definition outer_faces_abs_sum (a : ndarray) : Q :=
  total (map (face_abs_sum a) [X0; X1; Y0; Y1; Z0; Z1]).

(** A volume has at least one voxel along each axis. *)
Definition nonempty (a : ndarray) : Prop :=
  0 < dim0 a ∧ 0 < dim1 a ∧ 0 < dim2 a.

(** Every voxel of the six faces is a zero. *)
Definition faces_zero (a : ndarray) : Prop :=
  ∀ f v, v ∈ voxels a → on_face a f v = true →
         ∃ s, item a v.1.1 v.1.2 v.2 = S754_zero s.

End ProbeSpec.

Module Observe.
Import Anatomical.

(** The calls of the probe recorded in a state, oldest first. *)
Definition probe_of (e : Event) : option (list string) :=
  match e with
  | Probe imgs => Some imgs
  | _ => None
  end.

Definition probes (s : State) : list (list string) := omap probe_of s.(trace).

(** [updates f g m]: running [m] changes what [f] reads from the state
    by [g], whether [m] returns or raises. *)
Definition updates {A X} (f : State → X) (g : X → X) (m : M A) : Prop :=
  ∀ s, f (m s).2 = g (f s).

Abbreviation preserves f m := (updates f id m).

(** [ensures Q m]: the outcome of [m] satisfies [Q] from every state. *)
Definition ensures {A} (Q : Result A → Prop) (m : M A) : Prop :=
  ∀ s, Q (m s).1.

(** The function did not fall off its end. *)
Definition returned {A} (r : Result (option A)) : Prop := r ≠ Ok None.

Definition with_freesurfer (b : bool) (a : Args) : Args :=
  {| bids_root := a.(bids_root); hires := a.(hires);
     longitudinal := a.(longitudinal); t2w := a.(t2w);
     omp_nthreads := a.(omp_nthreads); output_dir := a.(output_dir);
     skull_strip_mode := a.(skull_strip_mode);
     skull_strip_template := a.(skull_strip_template);
     spaces := a.(spaces); debug := a.(debug); freesurfer := b;
     name := a.(name);
     skull_strip_fixed_seed := a.(skull_strip_fixed_seed) |}.

Definition with_mode (mode : pyval) (a : Args) : Args :=
  {| bids_root := a.(bids_root); hires := a.(hires);
     longitudinal := a.(longitudinal); t2w := a.(t2w);
     omp_nthreads := a.(omp_nthreads); output_dir := a.(output_dir);
     skull_strip_mode := mode;
     skull_strip_template := a.(skull_strip_template);
     spaces := a.(spaces); debug := a.(debug); freesurfer := a.(freesurfer);
     name := a.(name);
     skull_strip_fixed_seed := a.(skull_strip_fixed_seed) |}.

(** Nodes that compute on images.  Identity interfaces and [KeySelect]
    forward values they are handed; the reportlets and derivatives
    sub-workflows are the reporting and writing collaborators. *)
Definition is_processing_unit (i : Interface) : bool :=
  match i with
  | IdentityInterface _ | KeySelect _ _ => false
  | anat_reports_wf _ _ | anat_derivatives_wf _ _ _ _ => false
  | _ => true
  end.

Definition edge (s sp d dp : string) : Edge :=
  {| src := s; src_port := sp; src_fn := None; dst := d; dst_port := dp |}.

(** The connections made at lines 188-193. *)
Definition reports_edges : list Edge := [
  edge "outputnode" "t2w_preproc" "anat_reports_wf" "inputnode.t1w_preproc";
  edge "outputnode" "t2w_mask" "anat_reports_wf" "inputnode.t1w_mask";
  edge "outputnode" "t2w_dseg" "anat_reports_wf" "inputnode.t1w_dseg"].

(** The workflow returned when the derivatives [m] are reused, with
    [tpl] the popped templates and [src] the source file name. *)
Definition cached_graph (a : Args) (m : gmap string pyval) (tpl src : pyval)
  : Graph :=
  {| g_name := a.(name);
     g_desc := Some (Plain (desc_head +:+ desc_reused));
     g_nodes := [
       with_inputs (λ _, m) (mkNode
         (IdentityInterface ["t2w_preproc"; "t2w_mask"; "t2w_dseg"; "t2w_tpms";
                             "std_preproc"; "std_mask"; "std_dseg"; "std_tpms";
                             "anat2std_xfm"; "std2anat_xfm"; "template"])
         "outputnode");
       with_inputs (λ _, <["inputnode.source_file" := src]> ∅)
         (mkNode (anat_reports_wf false a.(output_dir)) "anat_reports_wf");
       mkNode (IdentityInterface ["t2w"; "roi"; "flair"; "subjects_dir"; "subject_id"])
         "inputnode";
       with_iterables [("template", tpl)]
         (mkNode (IdentityInterface ["template"]) "templatesource");
       with_resources true None None
         (mkNode (KeySelect ["std_preproc"; "std_mask"] tpl) "stdselect")];
     g_edges := reports_edges ++ [
       edge "inputnode" "subjects_dir" "outputnode" "subjects_dir";
       edge "inputnode" "subject_id" "outputnode" "subject_id";
       edge "inputnode" "subjects_dir" "anat_reports_wf" "inputnode.subjects_dir";
       edge "inputnode" "subject_id" "anat_reports_wf" "inputnode.subject_id";
       edge "templatesource" "template" "stdselect" "key";
       edge "outputnode" "std_preproc" "stdselect" "std_preproc";
       edge "outputnode" "std_mask" "stdselect" "std_mask";
       edge "stdselect" "key" "anat_reports_wf" "inputnode.template";
       edge "stdselect" "std_preproc" "anat_reports_wf" "inputnode.std_t1w";
       edge "stdselect" "std_mask" "anat_reports_wf" "inputnode.std_mask"] |}.

End Observe.

(** ** Concrete inputs *)

Module Samples.
Import Anatomical.

(** 3x3x3, zero on every face, intensity 5 at the centre. *)
Definition vol_stripped : Numpy.ndarray :=
  {| Numpy.shape := (3, 3, 3);
     Numpy.buf := map (λ i, if decide (i = 13) then Numpy.of_Z 5
                            else Numpy.zero32) (seq 0 27) |}.

(** 10x10x10, intensity 1 everywhere. *)
Definition vol_uniform : Numpy.ndarray :=
  {| Numpy.shape := (10, 10, 10); Numpy.buf := repeat (Numpy.of_Z 1) 1000 |}.

(** A single voxel of intensity 13981013 / 2^23, about 1.6666666. *)
Definition vol_boundary : Numpy.ndarray :=
  {| Numpy.shape := (1, 1, 1);
     Numpy.buf := [S754_finite false 13981013 (-23)] |}.

(** 7x1x1, every voxel 11184811 / 2^25, about 0.33333334. *)
Definition vol_thirds : Numpy.ndarray :=
  {| Numpy.shape := (7, 1, 1);
     Numpy.buf := repeat (S754_finite false 11184811 (-25)) 7 |}.

Definition world : World :=
  {| files := λ p,
       if decide (p = "sub-01_T2w.nii.gz") then Some vol_stripped
       else if decide (p = "sub-02_T2w.nii.gz") then Some vol_uniform
       else if decide (p = "sub-03_T2w.nii.gz") then Some vol_boundary
       else if decide (p = "sub-04_T2w.nii.gz") then Some vol_thirds
       else None;
     np_sum := Numpy.sum_ltr;
     ants_version := Some "2.3.4";
     fsl_version := None;
     fix_multi_source_name := λ _ _, Ok (PyStr "sub-01_T2w.nii.gz") |}.

Definition args (mode : string) : Args :=
  {| bids_root := "."; hires := true; longitudinal := false;
     t2w := ["sub-01_T2w.nii.gz"]; omp_nthreads := 1; output_dir := ".";
     skull_strip_mode := PyStr mode;
     skull_strip_template := {| space := "Fischer344"; fullname := "Fischer344" |};
     spaces := {| get_spaces := λ _ _, ["Fischer344"] |};
     debug := false; freesurfer := true; name := "anat_preproc_wf";
     skull_strip_fixed_seed := false |}.

(** Derivatives with [std_preproc] ... *)
Definition derivatives_full : gmap string pyval :=
  <["template" := PyList [PyStr "Fischer344"]]>
  (<["t2w_preproc" := PyStr "sub-01_desc-preproc_T2w.nii.gz"]>
  (<["std_preproc" := PyList [PyStr "sub-01_space-Fischer344_T2w.nii.gz"]]> ∅)).

(** ... and without it. *)
Definition derivatives_partial : gmap string pyval :=
  <["template" := PyList [PyStr "Fischer344"]]>
  (<["t2w_preproc" := PyStr "sub-01_desc-preproc_T2w.nii.gz"]> ∅).

(** Derivatives whose list of templates is empty. *)
Definition derivatives_no_template : gmap string pyval :=
  <["template" := PyList []]>
  (<["t2w_preproc" := PyStr "sub-01_desc-preproc_T2w.nii.gz"]> ∅).

Definition finished_branch (k : string) : JoinSynchronizer.Branch :=
  {| JoinSynchronizer.key := k;
     JoinSynchronizer.outputs := <["template" := PyStr k]> ∅ |}.

End Samples.

(** * Properties *)

Import Anatomical ProbeSpec Observe.

(** ** [_pop] *)

(** C10: [_pop] returns an input that is neither a list nor a tuple
    unchanged, returns the first element of a non-empty list or tuple,
    and fails with [IndexError] on an empty one, in both source files. *)
Theorem pop_spec (v : pyval) :
  (is_list_or_tuple v = false →
     Anatomical._pop v = Ok v ∧ RsFmri._pop v = Ok v) ∧
  (∀ x rest, v = PyList (x :: rest) ∨ v = PyTuple (x :: rest) →
     Anatomical._pop v = Ok x ∧ RsFmri._pop v = Ok x) ∧
  (v = PyList [] ∨ v = PyTuple [] →
     Anatomical._pop v = Raise IndexError ∧ RsFmri._pop v = Raise IndexError).
Proof.
  unfold Anatomical._pop, RsFmri._pop. split; [|split].
  - by intros ->.
  - by intros x rest [-> | ->].
  - by intros [-> | ->].
Qed.

Lemma pop_spec_witness :
  is_list_or_tuple (PyStr "tpl-MouseIn_res-1_desc-GM_probseg.nii.gz") = false ∧
  Anatomical._pop (PyStr "tpl-MouseIn_res-1_desc-GM_probseg.nii.gz") =
    Ok (PyStr "tpl-MouseIn_res-1_desc-GM_probseg.nii.gz") ∧
  RsFmri._pop (PyStr "tpl-MouseIn_res-1_desc-GM_probseg.nii.gz") =
    Ok (PyStr "tpl-MouseIn_res-1_desc-GM_probseg.nii.gz").
Proof.
  split; [reflexivity|].
  apply (proj1 (pop_spec (PyStr "tpl-MouseIn_res-1_desc-GM_probseg.nii.gz"))).
  reflexivity.
Defined.

(** ** The probe *)

Section probe.
Import Numpy.

Lemma index_first n : 0 < n → index n 0 = Ok 0.
Proof.
  intros Hn. unfold index. destruct (decide _) as [_|H]; [done|lia].
Qed.

Lemma index_last n : 0 < n → index n (-1) = Ok (n - 1).
Proof.
  intros Hn. unfold index.
  destruct (decide _) as [H|_]; [lia|].
  destruct (decide _) as [_|H]; [|lia].
  f_equal. lia.
Qed.

Lemma item_abs a i j k : item (abs a) i j k = SFabs (item a i j k).
Proof.
  unfold item, abs, dim1, dim2. simpl.
  change zero32 with (SFabs zero32) at 1. apply map_nth.
Qed.

Lemma filter_none {A} (P : A → Prop) `{∀ x, Decision (P x)} (l : list A) :
  Forall (λ x, ¬ P x) l → filter P l = [].
Proof.
  induction 1 as [|x l Hx _ IH]; [done|].
  by rewrite filter_cons_False.
Qed.

Lemma filter_all {A} (P : A → Prop) `{∀ x, Decision (P x)} (l : list A) :
  Forall P l → filter P l = l.
Proof.
  induction 1 as [|x l Hx _ IH]; [done|].
  rewrite filter_cons_True by done. by f_equal.
Qed.

Lemma filter_flat_map {A B} (P : B → Prop) `{∀ x, Decision (P x)}
    (f : A → list B) (l : list A) :
  filter P (flat_map f l) = flat_map (λ x, filter P (f x)) l.
Proof.
  induction l as [|x l IH]; [done|].
  simpl. by rewrite filter_app, IH.
Qed.

Lemma filter_map {A B} (P : B → Prop) `{∀ x, Decision (P x)}
    (f : A → B) (l : list A) :
  filter P (map f l) = map f (filter (λ x, P (f x)) l).
Proof.
  induction l as [|x l IH]; [done|]. simpl.
  rewrite !filter_cons. destruct (decide (P (f x))); simpl; by rewrite IH.
Qed.

Lemma flat_map_nil {A B} (h : A → list B) (l : list A) :
  Forall (λ x, h x = []) l → flat_map h l = [].
Proof.
  induction 1 as [|x l Hx _ IH]; [done|].
  simpl. by rewrite Hx, IH.
Qed.

(** Only the block of index [c] survives. *)
Lemma flat_map_select {B} (h : nat → list B) (c n : nat) :
  c < n → (∀ x, x ≠ c → h x = []) → flat_map h (seq 0 n) = h c.
Proof.
  intros Hc Hh.
  replace n with (c + S (n - S c)) by lia.
  rewrite seq_app, flat_map_app. simpl.
  rewrite !flat_map_nil.
  - by rewrite app_nil_r.
  - apply Forall_forall. intros x Hx%elem_of_seq. apply Hh. lia.
  - apply Forall_forall. intros x Hx%elem_of_seq. apply Hh. lia.
Qed.

Lemma flat_map_singleton {A B} (f : A → B) (l : list A) :
  flat_map (λ x, [f x]) l = map f l.
Proof. induction l as [|x l IH]; [done|]. simpl. by f_equal. Qed.

Lemma map_flat_map {A B C} (g : B → C) (f : A → list B) (l : list A) :
  map g (flat_map f l) = flat_map (λ x, map g (f x)) l.
Proof.
  induction l as [|x l IH]; [done|].
  simpl. by rewrite map_app, IH.
Qed.

Lemma filter_seq_eq (c n : nat) (P : nat → Prop) `{∀ x, Decision (P x)} :
  c < n → (∀ x, P x ↔ x = c) → filter P (seq 0 n) = [c].
Proof.
  intros Hc HP.
  replace n with (c + S (n - S c)) by lia.
  rewrite seq_app, filter_app. simpl.
  rewrite filter_cons_True by by apply HP.
  rewrite !filter_none; [done| |].
  - apply Forall_forall. intros x Hx%elem_of_seq. rewrite HP. lia.
  - apply Forall_forall. intros x Hx%elem_of_seq. rewrite HP. lia.
Qed.

Section faces.
Context (a : ndarray) (P : nat * nat * nat → Prop) `{∀ v, Decision (P v)}.

Lemma filter_voxels :
  filter P (voxels a) =
  flat_map (λ i, flat_map (λ j,
      map (λ k, (i, j, k)) (filter (λ k, P (i, j, k)) (seq 0 (dim2 a))))
    (seq 0 (dim1 a))) (seq 0 (dim0 a)).
Proof.
  unfold voxels. rewrite filter_flat_map.
  apply flat_map_ext. intros i. rewrite filter_flat_map.
  apply flat_map_ext. intros j. apply filter_map.
Qed.

Lemma face_x c :
  c < dim0 a → (∀ i j k, P (i, j, k) ↔ i = c) →
  filter P (voxels a) =
  flat_map (λ j, map (λ k, (c, j, k)) (seq 0 (dim2 a))) (seq 0 (dim1 a)).
Proof.
  intros Hc HP. rewrite filter_voxels, (flat_map_select _ c); [|done|].
  - apply flat_map_ext. intros j. f_equal. apply filter_all, Forall_forall.
    intros k _. by apply HP.
  - intros i Hi. apply flat_map_nil, Forall_forall. intros j _.
    rewrite filter_none; [done|]. apply Forall_forall. intros k _.
    by rewrite HP.
Qed.

Lemma face_y c :
  c < dim1 a → (∀ i j k, P (i, j, k) ↔ j = c) →
  filter P (voxels a) =
  flat_map (λ i, map (λ k, (i, c, k)) (seq 0 (dim2 a))) (seq 0 (dim0 a)).
Proof.
  intros Hc HP. rewrite filter_voxels. apply flat_map_ext. intros i.
  rewrite (flat_map_select _ c); [|done|].
  - f_equal. apply filter_all, Forall_forall. intros k _. by apply HP.
  - intros j Hj. rewrite filter_none; [done|]. apply Forall_forall.
    intros k _. by rewrite HP.
Qed.

Lemma face_z c :
  c < dim2 a → (∀ i j k, P (i, j, k) ↔ k = c) →
  filter P (voxels a) =
  flat_map (λ i, map (λ j, (i, j, c)) (seq 0 (dim1 a))) (seq 0 (dim0 a)).
Proof.
  intros Hc HP. rewrite filter_voxels. apply flat_map_ext. intros i.
  rewrite <- flat_map_singleton. apply flat_map_ext. intros j.
  by rewrite (filter_seq_eq c) by done.
Qed.

End faces.

(** Each slice of [np.abs(data)] lists the absolute values on one face. *)
Lemma take_faces a :
  nonempty a →
  take0 (abs a) 0 = Ok (face_values a X0) ∧
  take0 (abs a) (-1) = Ok (face_values a X1) ∧
  take1 (abs a) 0 = Ok (face_values a Y0) ∧
  take1 (abs a) (-1) = Ok (face_values a Y1) ∧
  take2 (abs a) 0 = Ok (face_values a Z0) ∧
  take2 (abs a) (-1) = Ok (face_values a Z1).
Proof.
  intros (H0 & H1 & H2). unfold take0, take1, take2, face_values.
  change (dim0 (abs a)) with (dim0 a). change (dim1 (abs a)) with (dim1 a).
  change (dim2 (abs a)) with (dim2 a).
  rewrite !index_first, !index_last by done. simpl.
  rewrite (face_x a _ 0), (face_x a _ (dim0 a - 1)),
    (face_y a _ 0), (face_y a _ (dim1 a - 1)),
    (face_z a _ 0), (face_z a _ (dim2 a - 1));
    try lia; try (intros i j k; simpl; by rewrite bool_decide_eq_true).
  rewrite !map_flat_map.
  repeat split; f_equal; apply flat_map_ext; intros x; rewrite map_map;
    apply map_ext; intros y; apply item_abs.
Qed.

(** [sidevals] is the binary32 sum over the six outer faces. *)
Lemma sidevals_faces w a :
  nonempty a → sidevals w (abs a) = Ok (faces_sum32 w a).
Proof.
  intros Ha. destruct (take_faces a Ha) as (E0 & E1 & E2 & E3 & E4 & E5).
  unfold sidevals. by rewrite E0, E1, E2, E3, E4, E5.
Qed.

Lemma check_data_spec w a :
  nonempty a → check_data w a = Ok (ltb (faces_sum32 w a) (of_Z 10)).
Proof. intros Ha. unfold check_data. by rewrite sidevals_faces. Qed.

(** No face of a volume with voxels is empty. *)
Lemma face_values_nonempty a f : nonempty a → face_values a f ≠ [].
Proof.
  intros Ha Hnil. pose proof Ha as (H0 & H1 & H2).
  assert (∃ v, v ∈ voxels a ∧ on_face a f v = true) as (v & Hv & Hf).
  { exists (match f with
            | X0 => (0, 0, 0) | X1 => (dim0 a - 1, 0, 0)
            | Y0 => (0, 0, 0) | Y1 => (0, dim1 a - 1, 0)
            | Z0 => (0, 0, 0) | Z1 => (0, 0, dim2 a - 1)
            end).
    split.
    - unfold voxels. apply list_elem_of_In, in_flat_map.
      exists (match f with X1 => dim0 a - 1 | _ => 0 end).
      split; [apply in_seq; destruct f; lia|].
      apply in_flat_map.
      exists (match f with Y1 => dim1 a - 1 | _ => 0 end).
      split; [apply in_seq; destruct f; lia|].
      apply in_map_iff.
      exists (match f with Z1 => dim2 a - 1 | _ => 0 end).
      split; [by destruct f|apply in_seq; destruct f; lia].
    - destruct f; cbv [on_face]; by apply bool_decide_eq_true_2. }
  unfold face_values in Hnil. apply fmap_nil_inv in Hnil.
  eapply (filter_nil_not_elem_of _ _ v); eauto.
Qed.

(** ** What is known of the reduction *)

Lemma tree_zero t :
  Forall (λ x, x = zero32) (leaves t) → tree_value t = zero32.
Proof.
  induction t as [x|l IHl r IHr]; simpl.
  - by intros ?%Forall_inv.
  - intros [Hl Hr]%Forall_app. by rewrite IHl, IHr.
Qed.

Lemma sums_zero reduce l :
  sums reduce → l ≠ [] → Forall (λ x, x = zero32) l → reduce l = zero32.
Proof.
  intros Hr Hl Hz. destruct (Hr l Hl) as (t & Hp & ->).
  apply tree_zero. by rewrite Hp.
Qed.

Lemma sum_ltr_acc rest t0 :
  ∃ t, leaves t ≡ₚ leaves t0 ++ rest ∧
       fold_left add32 rest (tree_value t0) = tree_value t.
Proof.
  revert t0. induction rest as [|x rest IH]; intros t0.
  - exists t0. by rewrite app_nil_r.
  - destruct (IH (Plus t0 (Leaf x))) as (t & Hp & Ht).
    exists t. split; [|done]. rewrite Hp. simpl. by rewrite <- app_assoc.
Qed.

(** Adding from left to right is one of the reductions. *)
Lemma sum_ltr_sums : sums sum_ltr.
Proof.
  intros [|x rest] Hl; [done|]. apply (sum_ltr_acc rest (Leaf x)).
Qed.

Lemma faces_zero_values a f :
  faces_zero a → Forall (λ x, x = zero32) (face_values a f).
Proof.
  intros Hz. apply Forall_forall.
  intros x (v & -> & [Hf Hv]%list_elem_of_filter)%list_elem_of_fmap.
  by destruct (Hz f v Hv Hf) as [sg ->].
Qed.

Lemma faces_zero_sum w a :
  sums w.(np_sum) → nonempty a → faces_zero a → faces_sum32 w a = zero32.
Proof.
  intros Hw Ha Hz. unfold faces_sum32.
  by rewrite !(sums_zero _ _ Hw (face_values_nonempty a _ Ha)
                 (faces_zero_values a _ Hz)).
Qed.

(** ** Order on binary32 *)

Lemma SFcompare_antisym x y :
  SFcompare y x = CompOpp <$> SFcompare x y.
Proof.
  destruct x as [sx|sx| |sx mx ex], y as [sy|sy| |sy my ey];
    repeat match goal with b : bool |- _ => destruct b end;
    simpl; try done.
  all: rewrite (Z.compare_antisym ey ex); destruct (ey ?= ex)%Z;
    simpl; try done.
  - f_equal. f_equal. symmetry. exact (Pos.compare_cont_antisym mx my Eq).
  - f_equal. symmetry. exact (Pos.compare_cont_antisym mx my Eq).
Qed.

(** [y <= x] excludes [x < y]. *)
Lemma leb_not_ltb x y : SFleb y x = true → ltb x y = false.
Proof.
  unfold SFleb, ltb, SFltb. rewrite (SFcompare_antisym y x).
  by destruct (SFcompare y x) as [[]|].
Qed.

Lemma check_img_result w img s :
  (_check_img w img s).1 =
  match w.(files) img with
  | Some a => check_data w a
  | None => Raise (FileNotFoundError img)
  end.
Proof.
  unfold _check_img, load, mbind, M_bind, lift. simpl.
  by destruct (files w img).
Qed.

Lemma all_check_img_spec w imgs :
  Forall (λ img, ∃ a, w.(files) img = Some a ∧ nonempty a) imgs →
  ∀ s, ∃ B, (all_check_img w imgs s).1 = Ok B ∧
    (B = true ↔ ∀ img, img ∈ imgs → ∀ s', (_check_img w img s').1 = Ok true).
Proof.
  induction 1 as [|img rest (a & Ea & Ha) _ IH]; intros s.
  - exists true. split; [done|]. split; [|done]. by intros _ img ?%elem_of_nil.
  - pose proof (check_data_spec w a Ha) as Eb.
    pose proof (check_img_result w img s) as Hr. rewrite Ea, Eb in Hr.
    simpl. unfold mbind, M_bind. destruct (_check_img w img s) as [r s1].
    simpl in Hr. subst r. destruct (ltb _ _) eqn:Hb.
    + destruct (IH s1) as (B & EB & HB).
      exists B. split; [done|]. rewrite HB. split.
      * intros Hall i [->|Hi]%elem_of_cons s'; [|by apply Hall].
        by rewrite check_img_result, Ea, Eb.
      * intros Hall i Hi. apply Hall. by right.
    + exists false. split; [done|]. split; [done|].
      intros Hall. specialize (Hall img (list_elem_of_here _ _) s).
      by rewrite check_img_result, Ea, Eb in Hall.
Qed.

End probe.

(** C1, as the code has it: an image is classified skull-stripped
    exactly when the binary32 value the code computes, the six face sums
    of absolute intensities reduced by numpy and added from left to
    right, compares below 10; a volume with zero faces is, and one for
    which that value is at least 10 is not; a batch is classified
    skull-stripped exactly when every image of it is. *)
Theorem probe_classifier_rule (w : World) (imgs : list string) (s : State) :
  Numpy.sums w.(np_sum) →
  Forall (λ img, ∃ a, w.(files) img = Some a ∧ nonempty a) imgs →
  (∀ img a, img ∈ imgs → w.(files) img = Some a →
     ∃ b, (_check_img w img s).1 = Ok b ∧
          (b = true ↔ Numpy.ltb (faces_sum32 w a) (Numpy.of_Z 10) = true) ∧
          (faces_zero a → b = true) ∧
          (SFleb (Numpy.of_Z 10) (faces_sum32 w a) = true → b = false)) ∧
  ∃ B, (_is_skull_stripped w imgs s).1 = Ok B ∧
       (B = true ↔ ∀ img, img ∈ imgs → (_check_img w img s).1 = Ok true).
Proof.
  intros Hsum Hw. split.
  - intros img a Hin Ea. rewrite Forall_forall in Hw.
    destruct (Hw img Hin) as (a' & Ea' & Ha). simplify_eq.
    eexists. rewrite check_img_result, Ea, (check_data_spec w a Ha).
    split; [done|]. split; [done|]. split.
    + intros Hz. by rewrite (faces_zero_sum w a Hsum Ha Hz).
    + apply leb_not_ltb.
  - unfold _is_skull_stripped, mbind, M_bind. simpl.
    destruct (all_check_img_spec w imgs Hw
                (emit (Probe imgs) s).2) as (B & EB & HB).
    exists B. split; [done|]. rewrite HB. split.
    + intros Hall img Hin. by apply Hall.
    + intros Hall img Hin s'.
      rewrite check_img_result, <- (check_img_result w img s). by apply Hall.
Qed.

Lemma probe_classifier_rule_witness :
  Numpy.sums Samples.world.(np_sum) ∧
  Forall (λ img, ∃ a, Samples.world.(files) img = Some a ∧ nonempty a)
         ["sub-01_T2w.nii.gz"; "sub-02_T2w.nii.gz"] ∧
  (∀ img a, img ∈ ["sub-01_T2w.nii.gz"; "sub-02_T2w.nii.gz"] →
     Samples.world.(files) img = Some a →
     ∃ b, (_check_img Samples.world img (initial None)).1 = Ok b ∧
          (b = true ↔ Numpy.ltb (faces_sum32 Samples.world a)
                                (Numpy.of_Z 10) = true) ∧
          (faces_zero a → b = true) ∧
          (SFleb (Numpy.of_Z 10) (faces_sum32 Samples.world a) = true →
           b = false)) ∧
  ∃ B, (_is_skull_stripped Samples.world
          ["sub-01_T2w.nii.gz"; "sub-02_T2w.nii.gz"] (initial None)).1 = Ok B ∧
       (B = true ↔ ∀ img, img ∈ ["sub-01_T2w.nii.gz"; "sub-02_T2w.nii.gz"] →
                     (_check_img Samples.world img (initial None)).1 = Ok true).
Proof.
  assert (Forall (λ img, ∃ a, Samples.world.(files) img = Some a ∧ nonempty a)
                 ["sub-01_T2w.nii.gz"; "sub-02_T2w.nii.gz"]) as Hw.
  { apply Forall_cons_2; [|apply Forall_cons_2; [|apply Forall_nil_2]];
      (eexists; split; [reflexivity|repeat split; vm_compute; lia]). }
  split; [exact sum_ltr_sums|]. split; [exact Hw|].
  exact (probe_classifier_rule Samples.world _ (initial None) sum_ltr_sums Hw).
Defined.

(** C1 as stated fails: the six face values of this one-voxel volume sum
    to less than 10, and their binary32 sum is 10, so the image is not
    classified skull-stripped. *)
Lemma probe_rounds_to_threshold :
  Samples.world.(files) "sub-03_T2w.nii.gz" = Some Samples.vol_boundary ∧
  (outer_faces_abs_sum Samples.vol_boundary < 10)%Q ∧
  sidevals Samples.world (Numpy.abs Samples.vol_boundary) = Ok (Numpy.of_Z 10) ∧
  (_check_img Samples.world "sub-03_T2w.nii.gz" (initial None)).1 = Ok false.
Proof. repeat split; vm_compute; reflexivity. Qed.

(** The other way round: exact sum above 10, binary32 sum below. *)
Lemma probe_rounds_below_threshold :
  (10 < outer_faces_abs_sum Samples.vol_thirds)%Q ∧
  (_check_img Samples.world "sub-04_T2w.nii.gz" (initial None)).1 = Ok true.
Proof. split; vm_compute; reflexivity. Qed.

(** The two volumes of the specification's example: zero faces around a
    bright centre, and intensity 1 everywhere on 10x10 faces. *)
Lemma probe_zero_faces :
  sidevals Samples.world (Numpy.abs Samples.vol_stripped) = Ok Numpy.zero32 ∧
  check_data Samples.world Samples.vol_stripped = Ok true.
Proof. split; vm_compute; reflexivity. Qed.

Lemma probe_uniform :
  sidevals Samples.world (Numpy.abs Samples.vol_uniform) = Ok (Numpy.of_Z 600) ∧
  check_data Samples.world Samples.vol_uniform = Ok false.
Proof. split; vm_compute; reflexivity. Qed.

(** An axis of length zero makes the first slice fail. *)
Lemma probe_empty_axis w :
  check_data w {| Numpy.shape := (0, 3, 3); Numpy.buf := [] |} = Raise IndexError.
Proof. reflexivity. Qed.

(** A batch is read up to its first image that is not skull-stripped. *)
Lemma probe_short_circuit :
  (_is_skull_stripped Samples.world
     ["sub-02_T2w.nii.gz"; "missing.nii.gz"] (initial None)).1 = Ok false.
Proof. vm_compute. reflexivity. Qed.

(** ** What a step leaves alone *)

Section frame.
Context {X : Type} (f : State → X).

Lemma updates_bind {A B} g (m : M A) (k : A → M B) :
  updates f g m → (∀ a, preserves f (k a)) → updates f g (m ≫= k).
Proof.
  intros Hm Hk s. unfold mbind, M_bind. specialize (Hm s).
  destruct (m s) as [[a|e] s1]; simpl in *; [|done].
  by rewrite Hk.
Qed.

Lemma updates_modify_bind {B} g (h : State → State) (k : () → M B) :
  (∀ s, f (h s) = f s) → updates f g (k ()) → updates f g (modify h ≫= k).
Proof. intros Hh Hk s. unfold mbind, M_bind, modify. by rewrite Hk, Hh. Qed.

Lemma preserves_ret {A} (a : A) : preserves f (mret a).
Proof. by intros s. Qed.

Lemma preserves_raise {A} e : preserves f (raise (A:=A) e).
Proof. by intros s. Qed.

Lemma preserves_lift {A} (r : Result A) : preserves f (lift r).
Proof. by intros s. Qed.

Lemma preserves_modify (h : State → State) :
  (∀ s, f (h s) = f s) → preserves f (modify h).
Proof. intros Hh s. apply Hh. Qed.

Lemma preserves_return_workflow : preserves f return_workflow.
Proof. by intros s. Qed.

Lemma preserves_derivatives_get k : preserves f (derivatives_get k).
Proof.
  intros s. unfold derivatives_get.
  destruct (existing_derivatives s) as [d|]; [|done]. by destruct (d !! k).
Qed.

Lemma preserves_load w img :
  (∀ s, f (emit (Load img) s).2 = f s) → preserves f (load w img).
Proof.
  intros He s. unfold load. specialize (He s).
  destruct (emit (Load img) s) as [r s1]. simpl in He.
  by destruct (files w img).
Qed.

Lemma all_check_img_preserves w imgs :
  (∀ img, preserves f (_check_img w img)) → preserves f (all_check_img w imgs).
Proof.
  intros Hc. induction imgs as [|img rest IH]; simpl; [by intros s|].
  apply updates_bind; [apply Hc|]. intros []; [apply IH|by intros s].
Qed.

End frame.

Lemma probes_emit e s :
  probes (emit e s).2 = probes s ++ from_option (λ i, [i]) [] (probe_of e).
Proof.
  unfold probes. simpl. rewrite omap_app. simpl. by destruct (probe_of e).
Qed.

Lemma probes_emit_other e s : probe_of e = None → probes (emit e s).2 = probes s.
Proof. intros He. rewrite probes_emit, He. apply app_nil_r. Qed.

(** The loop over the items of the dictionary amounts to one update of
    the inputs of the node. *)
Lemma map_fold_set_input (v : string) (d : gmap string pyval) (s : State) :
  map_fold (λ field value, set_input v field value) s d =
  set_heap (alter (with_inputs (λ i, d ∪ i)) v) s.
Proof.
  apply (map_fold_weak_ind (λ r d,
    r = set_heap (alter (with_inputs (λ i, d ∪ i)) v) s)).
  - destruct s as [h wf ed tr]. unfold set_heap. simpl. f_equal.
    symmetry. apply alter_id. intros [] _. unfold with_inputs. simpl.
    f_equal. apply (left_id_L ∅ (∪)).
  - intros i x m r Hi ->. destruct s as [h wf ed tr].
    unfold set_input, set_heap. simpl. f_equal.
    rewrite alter_alter_eq. apply alter_ext. intros [] _.
    unfold with_inputs. simpl. f_equal. by rewrite insert_union_l.
Qed.

Lemma for_items_set_input (v : string) (s : State) :
  for_items (λ field value, set_input v field value) s =
  (Ok (), match s.(existing_derivatives) with
          | Some d => set_heap (alter (with_inputs (λ i, d ∪ i)) v) s
          | None => s
          end).
Proof.
  unfold for_items. destruct (existing_derivatives s); [|done].
  by rewrite map_fold_set_input.
Qed.

(** A step that only touches the heap or the workflow keeps whatever is
    read from the other components. *)
Ltac frame_step :=
  first
    [ apply updates_bind; [|intros ?]
    | apply preserves_ret
    | apply preserves_raise
    | apply preserves_lift
    | apply preserves_return_workflow
    | apply preserves_derivatives_get
    | apply preserves_modify; intros ?; reflexivity
    | apply preserves_load; intros ?; reflexivity
    | apply preserves_load; intros ?; by apply probes_emit_other
    | (let s := fresh "s" in
       intros s; rewrite for_items_set_input; simpl;
       by destruct (existing_derivatives s) eqn:?)
    | (intros ?; by apply probes_emit_other) ].

Ltac frame :=
  unfold new_workflow, alloc, connect, set_desc, set_iterables;
  repeat frame_step.

Lemma prologue_derivatives fs a : preserves existing_derivatives (prologue fs a).
Proof. unfold prologue. frame. Qed.

Lemma prologue_probes fs a : preserves probes (prologue fs a).
Proof. unfold prologue. frame. Qed.

Lemma describe_derivatives w a d : preserves existing_derivatives (describe w a d).
Proof. unfold describe. frame. Qed.

Lemma describe_probes w a d : preserves probes (describe w a d).
Proof. unfold describe. frame. Qed.

Lemma wire_derivatives fs a : preserves existing_derivatives (wire fs a).
Proof. unfold wire. frame. Qed.

Lemma wire_probes fs a : preserves probes (wire fs a).
Proof. unfold wire. frame. Qed.

Lemma segmentation_derivatives fs : preserves existing_derivatives (segmentation fs).
Proof. unfold segmentation. destruct fs; simpl; frame. Qed.

Lemma segmentation_probes fs : preserves probes (segmentation fs).
Proof. unfold segmentation. destruct fs; simpl; frame. Qed.

Lemma brain_extraction_derivatives a mode :
  preserves existing_derivatives (brain_extraction a mode).
Proof. unfold brain_extraction. destruct (_ || _); frame. Qed.

Lemma brain_extraction_probes a mode : preserves probes (brain_extraction a mode).
Proof. unfold brain_extraction. destruct (_ || _); frame. Qed.

Lemma check_img_derivatives w img : preserves existing_derivatives (_check_img w img).
Proof. unfold _check_img. frame. Qed.

Lemma check_img_workflow w img : preserves workflow (_check_img w img).
Proof. unfold _check_img. frame. Qed.

Lemma check_img_probes w img : preserves probes (_check_img w img).
Proof. unfold _check_img. frame. Qed.

Lemma is_skull_stripped_derivatives w imgs :
  preserves existing_derivatives (_is_skull_stripped w imgs).
Proof.
  unfold _is_skull_stripped. apply updates_bind; [by intros s|]. intros _.
  apply all_check_img_preserves, check_img_derivatives.
Qed.

Lemma is_skull_stripped_workflow w imgs :
  preserves workflow (_is_skull_stripped w imgs).
Proof.
  unfold _is_skull_stripped. apply updates_bind; [by intros s|]. intros _.
  apply all_check_img_preserves, check_img_workflow.
Qed.

(** The probe records its call, and nothing it does records another. *)
Lemma is_skull_stripped_probes w imgs :
  updates probes (λ l, l ++ [imgs]) (_is_skull_stripped w imgs).
Proof.
  unfold _is_skull_stripped. apply updates_bind.
  - intros s. by rewrite probes_emit.
  - intros _. apply all_check_img_preserves, check_img_probes.
Qed.

Lemma derivatives_pop_probes k : preserves probes (derivatives_pop k).
Proof.
  intros s. unfold derivatives_pop.
  destruct (existing_derivatives s) as [d|]; [|done]. by destruct (d !! k).
Qed.

(** [pop] removes the key when it is there and raises without a change
    when it is not. *)
Lemma derivatives_pop_derivatives k :
  updates existing_derivatives (fmap (delete k)) (derivatives_pop k).
Proof.
  intros s. unfold derivatives_pop.
  destruct (existing_derivatives s) as [d|] eqn:E; [|done].
  destruct (d !! k) eqn:Ek; simpl; [done|].
  by rewrite E, delete_id.
Qed.

Lemma reuse_probes w a d : preserves probes (reuse_derivatives w a d).
Proof.
  unfold reuse_derivatives. frame. apply derivatives_pop_probes.
Qed.

Lemma reuse_derivatives_pops w a d :
  updates existing_derivatives (fmap (delete "template"))
          (reuse_derivatives w a d).
Proof.
  unfold reuse_derivatives.
  apply updates_modify_bind; [done|].
  unfold set_desc. apply updates_modify_bind; [done|].
  apply updates_bind; [apply derivatives_pop_derivatives|]. intros tpl. frame.
Qed.

Lemma prologue_run fs a s : ∃ s1, prologue fs a s = (Ok (), s1).
Proof. eexists. reflexivity. Qed.

Lemma describe_run w a d s : ∃ s1, describe w a d s = (Ok (), s1).
Proof. eexists. reflexivity. Qed.

Lemma assemble_derivatives fs w a s :
  existing_derivatives (assemble fs w a s).2 =
  delete "template" <$> existing_derivatives s.
Proof.
  unfold assemble.
  destruct (prologue_run fs a s) as [s1 E1].
  pose proof (prologue_derivatives fs a s) as H1.
  unfold mbind at 1, M_bind at 1. rewrite E1 in *. simpl in H1.
  unfold mbind at 1, M_bind at 1, derivatives_supplied at 1. rewrite <- H1.
  destruct (existing_derivatives s1) as [m|] eqn:Em.
  - by rewrite reuse_derivatives_pops, Em.
  - assert (preserves existing_derivatives
      (describe w a desc_head;;
       mode ← resolve_mode w a;
       brain_extraction a mode;; wire fs a;; segmentation fs)) as Hp;
      [|by rewrite Hp, Em].
    apply updates_bind; [apply describe_derivatives|]. intros _.
    apply updates_bind.
    { unfold resolve_mode. destruct (eq_str _ _); [|frame].
      apply updates_bind; [apply is_skull_stripped_derivatives|].
      intros b. frame. }
    intros mode. apply updates_bind; [apply brain_extraction_derivatives|].
    intros _. apply updates_bind; [apply wire_derivatives|]. intros _.
    apply segmentation_derivatives.
Qed.

Lemma assemble_probes fs w a s :
  probes (assemble fs w a s).2 =
  probes s ++
  match existing_derivatives s with
  | Some _ => []
  | None => if eq_str a.(skull_strip_mode) "auto" then [a.(t2w)] else []
  end.
Proof.
  unfold assemble.
  destruct (prologue_run fs a s) as [s1 E1].
  pose proof (prologue_derivatives fs a s) as H1.
  pose proof (prologue_probes fs a s) as H2.
  unfold mbind at 1, M_bind at 1. rewrite E1 in *. simpl in H1, H2.
  unfold mbind at 1, M_bind at 1, derivatives_supplied at 1.
  rewrite <- H1, <- H2.
  destruct (existing_derivatives s1) as [m|] eqn:Em.
  - by rewrite reuse_probes, app_nil_r.
  - destruct (describe_run w a desc_head s1) as [s2 E2].
    pose proof (describe_probes w a desc_head s1) as H3.
    unfold mbind at 1, M_bind at 1. rewrite E2 in *. simpl in H3.
    rewrite <- H3.
    assert (updates probes
      (λ l, l ++ if eq_str a.(skull_strip_mode) "auto" then [a.(t2w)] else [])
      (mode ← resolve_mode w a;
       brain_extraction a mode;; wire fs a;; segmentation fs)) as Hp; [|apply Hp].
    apply updates_bind.
    { unfold resolve_mode. destruct (eq_str _ _).
      - apply updates_bind; [apply is_skull_stripped_probes|]. intros b. frame.
      - intros s'. simpl. by rewrite app_nil_r. }
    intros mode. apply updates_bind; [apply brain_extraction_probes|].
    intros _. apply updates_bind; [apply wire_probes|]. intros _.
    apply segmentation_probes.
Qed.

(** ** Running the assembly *)

Ltac run :=
  cbv [call init_anat_preproc_wf assemble prologue reuse_derivatives describe
       resolve_mode brain_extraction
       mbind M_bind mret M_ret modify alloc connect emit set_desc new_workflow
       derivatives_supplied derivatives_pop derivatives_get lift
       raise set_iterables return_workflow set_heap set_workflow
       set_derivatives initial heap workflow existing_derivatives trace fst snd].

Ltac lookups :=
  repeat first
    [ rewrite lookup_insert_eq | rewrite lookup_alter_eq
    | rewrite lookup_insert_ne by done | rewrite lookup_alter_ne by done ].

Lemma restore_template (m : gmap string pyval) tpl :
  m !! "template" = Some tpl →
  delete "template" m ∪ <["template":=tpl]> ∅ = m.
Proof.
  intros Ht. apply map_eq. intros k. rewrite lookup_union.
  destruct (decide (k = "template")) as [->|Hk].
  - by rewrite lookup_delete_eq, lookup_insert_eq, Ht.
  - rewrite lookup_delete_ne, lookup_insert_ne, lookup_empty by done.
    by destruct (m !! k).
Qed.

(** The outcome of a call that is handed a dictionary of derivatives. *)
Lemma reuse_result w a m :
  (call w a (Some m)).1 =
  match m !! "template" with
  | None => Raise (KeyError "template")
  | Some tpl =>
      match m !! "t2w_preproc" with
      | None => Raise (KeyError "t2w_preproc")
      | Some p =>
          match w.(fix_multi_source_name) [p] "T2w" with
          | Raise e => Raise e
          | Ok src => Ok (Some (cached_graph a m tpl src))
          end
      end
  end.
Proof.
  run. destruct (m !! "template") as [tpl|] eqn:Ht; [|done]. run.
  rewrite for_items_set_input. run. cbv [set_input]. run.
  rewrite lookup_delete_ne by done.
  destruct (m !! "t2w_preproc") as [p|] eqn:Hp; [|done]. run.
  destruct (fix_multi_source_name w [p] "T2w") as [src|e]; [|done]. run.
  do 2 f_equal. unfold snapshot, cached_graph. run.
  f_equal.
  change (graph_nodes _) with
    ["outputnode"; "anat_reports_wf"; "inputnode"; "templatesource"; "stdselect"].
  cbn [omap list_omap]. lookups.
  cbn [fmap option_fmap option_map].
  cbv [with_inputs with_iterables with_resources mkNode Engine.name interface
       inputs iterables joinsource run_without_submitting n_procs mem_gb].
  by rewrite (restore_template m tpl Ht).
Qed.

Lemma cached_graph_passes_through a m tpl source :
  Forall (λ n, is_processing_unit n.(interface) = false)
         (cached_graph a m tpl source).(g_nodes) ∧
  Forall (λ e, e.(src) ∈ ["inputnode"; "outputnode"; "templatesource"; "stdselect"] ∧
               e.(src_fn) = None)
         (cached_graph a m tpl source).(g_edges).
Proof.
  cbv [cached_graph g_edges g_nodes reports_edges app]. split.
  - repeat (apply Forall_cons_2; [reflexivity|]). apply Forall_nil_2.
  - repeat (apply Forall_cons_2;
      [split; [by apply (bool_decide_unpack _)|reflexivity]|]).
    apply Forall_nil_2.
Qed.

(** C2, as the code has it: in mode ['auto'] with no derivatives to
    reuse, inputs that the probe finds skull-stripped make the
    construction raise [NotImplementedError], so no graph is returned;
    by then the workflow object holds the output node and the
    reportlets sub-workflow with their three connections, and nothing
    else. *)
Theorem stripped_input_rejected (w : World) (a : Args) :
  a.(skull_strip_mode) = PyStr "auto" →
  (∀ s, (_is_skull_stripped w a.(t2w) s).1 = Ok true) →
  (call w a None).1 =
    Raise (NotImplementedError "Cannot run on already skull-stripped images.") ∧
  graph_nodes (workflow (call w a None).2) = ["outputnode"; "anat_reports_wf"] ∧
  graph_edges (workflow (call w a None).2) = reports_edges.
Proof.
  intros Hmode Hprobe. run. rewrite Hmode. cbn [eq_str].
  rewrite bool_decide_eq_true_2 by done.
  match goal with
  | |- context [_is_skull_stripped w (t2w a) ?s] =>
      pose proof (Hprobe s) as Hr;
      pose proof (is_skull_stripped_workflow w (t2w a) s) as Hw;
      destruct (_is_skull_stripped w (t2w a) s) as [r s1]
  end.
  simpl in Hr, Hw. subst r. destruct s1 as [h1 wf1 d1 t1].
  simpl in Hw. subst wf1. cbn [eq_True orb]. run. done.
Qed.

Lemma stripped_input_rejected_witness :
  (Samples.args "auto").(skull_strip_mode) = PyStr "auto" ∧
  (∀ s, (_is_skull_stripped Samples.world (Samples.args "auto").(t2w) s).1 = Ok true) ∧
  (call Samples.world (Samples.args "auto") None).1 =
    Raise (NotImplementedError "Cannot run on already skull-stripped images.") ∧
  graph_nodes (workflow (call Samples.world (Samples.args "auto") None).2) =
    ["outputnode"; "anat_reports_wf"] ∧
  graph_edges (workflow (call Samples.world (Samples.args "auto") None).2) =
    reports_edges.
Proof.
  split; [reflexivity|]. split; [intros s; vm_compute; reflexivity|].
  apply (stripped_input_rejected Samples.world (Samples.args "auto")).
  - reflexivity.
  - intros s. vm_compute. reflexivity.
Defined.

(** C2 as stated fails: when the error is raised the workflow object is
    not empty. *)
Lemma nodes_added_before_rejection :
  (Samples.args "auto").(skull_strip_mode) = PyStr "auto" ∧
  (_is_skull_stripped Samples.world (Samples.args "auto").(t2w) (initial None)).1
    = Ok true ∧
  (call Samples.world (Samples.args "auto") None).1 =
    Raise (NotImplementedError "Cannot run on already skull-stripped images.") ∧
  graph_nodes (workflow (call Samples.world (Samples.args "auto") None).2) ≠ [].
Proof. repeat split; vm_compute; congruence. Qed.

(** C3, as the code has it: a supplied dictionary of derivatives is not
    checked for completeness.  The construction raises [KeyError] when
    ['template'] or ['t2w_preproc'] is missing and otherwise returns the
    pass-through graph whatever else is missing; that graph holds no
    processing unit, so computing and reusing are never mixed. *)
Theorem derivatives_needed (w : World) (a : Args) (m : gmap string pyval) :
  (call w a (Some m)).1 =
    match m !! "template" with
    | None => Raise (KeyError "template")
    | Some tpl =>
        match m !! "t2w_preproc" with
        | None => Raise (KeyError "t2w_preproc")
        | Some p =>
            match w.(fix_multi_source_name) [p] "T2w" with
            | Raise e => Raise e
            | Ok source => Ok (Some (cached_graph a m tpl source))
            end
        end
    end ∧
  ∀ tpl source,
    Forall (λ n, is_processing_unit n.(interface) = false)
           (cached_graph a m tpl source).(g_nodes).
Proof.
  split; [apply reuse_result|]. intros tpl source.
  apply cached_graph_passes_through.
Qed.

(** C3 as stated fails: derivatives without [std_preproc] are accepted. *)
Lemma partial_derivatives_accepted :
  Samples.derivatives_partial !! "std_preproc" = None ∧
  ∃ g, (call Samples.world (Samples.args "force")
          (Some Samples.derivatives_partial)).1 = Ok (Some g).
Proof.
  split; [vm_compute; reflexivity|].
  eexists. rewrite reuse_result. reflexivity.
Qed.



(** C6, as the code has it: in modes ['skip'] and ['force'] the probe is
    never called; in mode ['auto'] it is called, once and on the input
    images, when no derivatives are supplied, and not at all when they
    are, because the function returns before it reaches the probe. *)
Theorem probe_invocation (w : World) (a : Args)
    (d : option (gmap string pyval)) (m : gmap string pyval) :
  probes (call w (with_mode (PyStr "skip") a) d).2 = [] ∧
  probes (call w (with_mode (PyStr "force") a) d).2 = [] ∧
  probes (call w (with_mode (PyStr "auto") a) None).2 = [a.(t2w)] ∧
  probes (call w (with_mode (PyStr "auto") a) (Some m)).2 = [].
Proof.
  unfold call, init_anat_preproc_wf. rewrite !assemble_probes.
  by destruct d.
Qed.

(** C6 as stated fails: mode ['auto'] with derivatives to reuse. *)
Lemma auto_without_probe :
  (Samples.args "auto").(skull_strip_mode) = PyStr "auto" ∧
  probes (call Samples.world (Samples.args "auto")
            (Some Samples.derivatives_full)).2 = [] ∧
  trace (call Samples.world (Samples.args "auto")
           (Some Samples.derivatives_full)).2 =
    [Log 25 "Anatomical workflow will reuse prior derivatives found in the output folder (%s)." "."].
Proof. repeat split; vm_compute; reflexivity. Qed.

(** C7, as the code has it: an empty list of templates is not refused
    when the graph is built; it becomes the iterable of the template
    source and the key list of the selector, and the graph is returned. *)
Theorem empty_templates_accepted (w : World) (a : Args)
    (m : gmap string pyval) (p source : pyval) :
  m !! "template" = Some (PyList []) →
  m !! "t2w_preproc" = Some p →
  w.(fix_multi_source_name) [p] "T2w" = Ok source →
  ∃ g templatesource stdselect,
    (call w a (Some m)).1 = Ok (Some g) ∧
    g.(g_nodes) !! 3 = Some templatesource ∧
    templatesource.(Engine.name) = "templatesource" ∧
    templatesource.(iterables) = [("template", PyList [])] ∧
    g.(g_nodes) !! 4 = Some stdselect ∧
    stdselect.(interface) = KeySelect ["std_preproc"; "std_mask"] (PyList []).
Proof.
  intros Ht Hp Hs. eexists _, _, _.
  rewrite reuse_result, Ht, Hp, Hs. by repeat split.
Qed.

Lemma empty_templates_accepted_witness :
  Samples.derivatives_no_template !! "template" = Some (PyList []) ∧
  Samples.derivatives_no_template !! "t2w_preproc" =
    Some (PyStr "sub-01_desc-preproc_T2w.nii.gz") ∧
  Samples.world.(fix_multi_source_name)
    [PyStr "sub-01_desc-preproc_T2w.nii.gz"] "T2w" =
    Ok (PyStr "sub-01_T2w.nii.gz") ∧
  ∃ g, (call Samples.world (Samples.args "force")
          (Some Samples.derivatives_no_template)).1 = Ok (Some g).
Proof.
  split; [vm_compute; reflexivity|]. split; [vm_compute; reflexivity|].
  split; [reflexivity|].
  destruct (empty_templates_accepted Samples.world (Samples.args "force")
              Samples.derivatives_no_template
              (PyStr "sub-01_desc-preproc_T2w.nii.gz")
              (PyStr "sub-01_T2w.nii.gz"))
    as (g & tsrc & sel & Hg & _);
    [vm_compute; reflexivity|vm_compute; reflexivity|reflexivity|].
  exists g. exact Hg.
Defined.

(** C7 as stated fails: no error for an empty key set. *)
Lemma empty_iterable_not_an_error :
  Samples.derivatives_no_template !! "template" = Some (PyList []) ∧
  (call Samples.world (Samples.args "force")
     (Some Samples.derivatives_no_template)).1 =
    Ok (Some (cached_graph (Samples.args "force")
                Samples.derivatives_no_template (PyList [])
                (PyStr "sub-01_T2w.nii.gz"))).
Proof.
  split; [vm_compute; reflexivity|]. rewrite reuse_result. reflexivity.
Qed.

(** [init_anat_norm_wf] of [rs_fmri.py] attaches the templates it is
    given, empty or not, and never gets as far as a connection: it stops
    at a reference image that does not exist or, when both exist, at
    the unbound name. *)
Lemma init_anat_norm_wf_stops w debug omp_nthreads templates name :
  let r := RsFmri.init_anat_norm_wf w debug omp_nthreads templates name
             (initial None) in
  r.1 =
    match
      w.(files) "/globalscratch/users/q/d/qdessain/SYRINA/Template/MouseIn/tpl-MouseIn_res-1_T1map.nii.gz",
      w.(files) "/globalscratch/users/q/d/qdessain/SYRINA/Template/MouseIn/tpl-MouseIn_res-1_desc-brain_mask.nii.gz"
    with
    | Some _, Some _ => Raise (NameError "split_desc")
    | _, _ => Raise (TraitError "reference_image")
    end ∧
  (iterables <$> heap r.2 !! "inputnode") =
    Some [("template", PyList (PyStr <$> templates))] ∧
  graph_nodes (workflow r.2) = [].
Proof.
  cbv [RsFmri.init_anat_norm_wf RsFmri.set_existing_file RsFmri.unbound
       mbind M_bind modify alloc new_workflow set_iterables raise].
  destruct (files w _); [destruct (files w _)|];
    destruct debug; repeat split; vm_compute; reflexivity.
Qed.

(** C8, as the code has it: the only argument the construction changes
    is a supplied dictionary of derivatives, which loses its
    ['template'] entry and keeps every other entry; without that entry,
    or without a dictionary, nothing is changed. *)
Theorem derivatives_after_call (w : World) (a : Args)
    (d : option (gmap string pyval)) :
  existing_derivatives (call w a d).2 = delete "template" <$> d.
Proof. unfold call, init_anat_preproc_wf. by rewrite assemble_derivatives. Qed.

(** C8 as stated fails: the caller's dictionary has lost an entry. *)
Lemma derivatives_mutated :
  Samples.derivatives_full !! "template" = Some (PyList [PyStr "Fischer344"]) ∧
  (existing_derivatives
     (call Samples.world (Samples.args "force")
        (Some Samples.derivatives_full)).2) ≫= (.!! "template") = None.
Proof.
  split; [vm_compute; reflexivity|].
  unfold call, init_anat_preproc_wf. rewrite assemble_derivatives.
  vm_compute. reflexivity.
Qed.

(** ** The [freesurfer] argument *)

Lemma ensures_bind {A B} (Q : Result B → Prop) (m : M A) (k : A → M B) :
  (∀ e, Q (Raise e)) → (∀ x, ensures Q (k x)) → ensures Q (m ≫= k).
Proof.
  intros He Hk s. unfold mbind, M_bind.
  destruct (m s) as [[x|e] s1]; [apply Hk|apply He].
Qed.

Lemma assemble_returns w a : ensures returned (assemble false w a).
Proof.
  assert (∀ e, returned (A:=Graph) (Raise e)) as He by done.
  unfold assemble. apply ensures_bind; [done|]. intros _.
  apply ensures_bind; [done|]. intros [].
  - unfold reuse_derivatives. repeat (apply ensures_bind; [done|]; intros ?).
    by intros s.
  - repeat (apply ensures_bind; [done|]; intros ?). by intros s.
Qed.

(** Were the argument honoured, a call with [freesurfer=True] would run
    off the end of the function and return [None]. *)
Lemma assemble_with_freesurfer :
  (assemble true Samples.world (Samples.args "force") (initial None)).1 = Ok None.
Proof. vm_compute. reflexivity. Qed.

(** C9: the result of [init_anat_preproc_wf], and the state it leaves,
    are the same for [freesurfer=True] and [freesurfer=False]; the
    branch that needs [freesurfer] to be true is never taken, so the
    function never returns [None]. *)
Theorem freesurfer_ignored (w : World) (a : Args)
    (d : option (gmap string pyval)) :
  call w (with_freesurfer true a) d = call w (with_freesurfer false a) d ∧
  returned (call w (with_freesurfer true a) d).1.
Proof. split; [reflexivity|apply assemble_returns]. Qed.

(** ** Join order *)

Section join.
Import JoinSynchronizer.

Lemma branch_output_found keys run finished field k v :
  finished ≡ₚ map (λ k, {| key := k; outputs := run k |}) keys →
  k ∈ keys → run k !! field = Some v →
  branch_output finished field k = Some v.
Proof.
  intros Hp Hk Hv. unfold branch_output.
  destruct (list_find (λ b, key b = k) finished) as [[i b]|] eqn:Ef.
  - apply list_find_Some in Ef as (Hi & Hb & _). simpl.
    assert (b ∈ finished) as Hin by (by eapply list_elem_of_lookup_2).
    rewrite Hp in Hin. apply list_elem_of_fmap in Hin as (k' & -> & _).
    simpl in *. by subst k'.
  - apply list_find_None in Ef. exfalso.
    rewrite Forall_forall in Ef.
    apply (Ef {| key := k; outputs := run k |}); [|done].
    rewrite Hp. apply list_elem_of_fmap. eauto.
Qed.

Lemma gather_in_key_order keys run finished field (out : string → pyval) ks :
  finished ≡ₚ map (λ k, {| key := k; outputs := run k |}) keys →
  (∀ k, k ∈ keys → run k !! field = Some (out k)) →
  ks ⊆ keys →
  gather ks finished field = inr (map out ks).
Proof.
  intros Hp Hout. induction ks as [|k ks IH]; intros Hsub; [done|].
  simpl. rewrite (branch_output_found keys run finished field k (out k));
    [|done|apply Hsub; left|apply Hout, Hsub; left].
  rewrite IH; [done|]. intros x Hx. apply Hsub. by right.
Qed.

End join.

(** C5: whatever the order in which the branches of an expansion over
    the keys [keys] complete, the joined collection has one element per
    key and its i-th element is the output of the branch of the i-th
    key: it is determined by the keys alone. *)
Theorem join_key_order (keys : list string) (run : string → gmap string pyval)
    (branches finished : list JoinSynchronizer.Branch) (field : string)
    (out : string → pyval) :
  JoinSynchronizer.expand keys run = inr branches →
  finished ≡ₚ branches →
  (∀ k, k ∈ keys → run k !! field = Some (out k)) →
  ∃ joined,
    JoinSynchronizer.join keys finished field = inr joined ∧
    length joined = length keys ∧
    (∀ i k, keys !! i = Some k → joined !! i = Some (out k)) ∧
    joined = map out keys.
Proof.
  intros He Hp Hout.
  assert (finished ≡ₚ map (λ k, {| JoinSynchronizer.key := k;
                                   JoinSynchronizer.outputs := run k |}) keys)
    as Hp'.
  { rewrite Hp. unfold JoinSynchronizer.expand in He.
    destruct keys; [done|]. by injection He as <-. }
  exists (map out keys). unfold JoinSynchronizer.join.
  rewrite decide_True by (by rewrite Hp', length_map).
  split; [by eapply gather_in_key_order|].
  split; [by rewrite length_map|]. split; [|done].
  intros i k Hi. by rewrite list_lookup_fmap, Hi.
Qed.

Lemma join_key_order_witness :
  JoinSynchronizer.expand ["Fischer344"; "MouseIn"; "MNI152NLin6Asym"]
    (λ k, <["template" := PyStr k]> ∅) =
  inr (map Samples.finished_branch
           ["Fischer344"; "MouseIn"; "MNI152NLin6Asym"]) ∧
  [Samples.finished_branch "MNI152NLin6Asym";
   Samples.finished_branch "Fischer344";
   Samples.finished_branch "MouseIn"] ≡ₚ
  map Samples.finished_branch ["Fischer344"; "MouseIn"; "MNI152NLin6Asym"] ∧
  JoinSynchronizer.join ["Fischer344"; "MouseIn"; "MNI152NLin6Asym"]
    [Samples.finished_branch "MNI152NLin6Asym";
     Samples.finished_branch "Fischer344";
     Samples.finished_branch "MouseIn"] "template" =
  inr [PyStr "Fischer344"; PyStr "MouseIn"; PyStr "MNI152NLin6Asym"].
Proof.
  assert ([Samples.finished_branch "MNI152NLin6Asym";
           Samples.finished_branch "Fischer344";
           Samples.finished_branch "MouseIn"] ≡ₚ
          map Samples.finished_branch
              ["Fischer344"; "MouseIn"; "MNI152NLin6Asym"]) as Hp.
  { apply (Permutation_app_comm [_] [_; _]). }
  split; [reflexivity|]. split; [exact Hp|].
  destruct (join_key_order ["Fischer344"; "MouseIn"; "MNI152NLin6Asym"]
              (λ k, <["template" := PyStr k]> ∅) _ _ "template" PyStr
              eq_refl Hp)
    as (joined & -> & _ & _ & ->); [|reflexivity].
  intros k _. apply lookup_insert_eq.
Defined.
